(** * seegpy.io.read: the trace readers [read_trc] and [read_pramat]

    A shallow embedding of [src/seegpy/io/read.py].  The two readers talk to
    the file system and to third-party decoders (neo, h5py, scipy, mat73);
    these are gathered in a record [World] of oracles, and the readers are
    functions of a world and a path.  Exceptions are explicit ([result]) and
    the records sent to the module logger are collected ([Logged]). *)

From Stdlib Require Import String Ascii ZArith QArith Qround Bool Arith Lia
  List Sorted.
Import ListNotations.
Open Scope string_scope.
Open Scope Z_scope.

Set Implicit Arguments.

(** ** Exceptions and results *)

(** The Python exception classes that the readers and their collaborators
    raise.  [OSError] stands for the [OSError] family outside the two
    subclasses named here. *)
Inductive exn : Type :=
| AssertionError
| IndexError
| ValueError
| TypeError
| KeyError
| OverflowError
| FileNotFoundError
| NotADirectoryError
| OSError.

Inductive result (A : Type) : Type :=
| Ok (a : A)
| Raise (e : exn).

Arguments Ok {A} a.
Arguments Raise {A} e.

Module Res.

Definition bind {A B} (m : result A) (k : A -> result B) : result B :=
  match m with
  | Ok a => k a
  | Raise e => Raise e
  end.

(** [assert c]: raises [AssertionError] when [c] is false. *)
Definition assert (c : bool) : result unit :=
  if c then Ok tt else Raise AssertionError.

End Res.

Declare Scope res_scope.
Delimit Scope res_scope with res.
Notation "x <- m ;; k" := (Res.bind m (fun x => k))
  (at level 61, m at next level, right associativity) : res_scope.
Notation "m ;;; k" := (Res.bind m (fun _ => k))
  (at level 61, right associativity) : res_scope.

(** Every record the module emits goes through [logger.error]; a log is the
    list of the messages, oldest first. *)
Definition log := list string.

(** A computation that logs and may raise: the records logged so far are kept
    when an exception escapes. *)
Definition Logged (A : Type) : Type := (log * result A)%type.

Module Log.

Definition ret {A} (a : A) : Logged A := ([], Ok a).

Definition bind {A B} (m : Logged A) (k : A -> Logged B) : Logged B :=
  match m with
  | (l, Ok a) => let (l', r) := k a in ((l ++ l')%list, r)
  | (l, Raise e) => (l, Raise e)
  end.

Definition lift {A} (r : result A) : Logged A := ([], r).

(** [logger.error(msg)] *)
Definition error (msg : string) : Logged unit := ([msg], Ok tt).

End Log.

Declare Scope log_scope.
Delimit Scope log_scope with log.
Notation "x <- m ;; k" := (Log.bind m (fun x => k))
  (at level 61, m at next level, right associativity) : log_scope.
Notation "m ;;; k" := (Log.bind m (fun _ => k))
  (at level 61, right associativity) : log_scope.

(** ** The numpy operations the readers use *)

Module Np.

(** A one-dimensional array after [.squeeze()]: an axis of length one is
    removed, which leaves a zero-dimensional array. *)
Inductive squeezed (A : Type) : Type :=
| Arr0 (x : A)
| Arr1 (l : list A).

Arguments Arr0 {A} x.
Arguments Arr1 {A} l.

Definition squeeze {A} (l : list A) : squeezed A :=
  match l with
  | [x] => Arr0 x
  | _ => Arr1 l
  end.

(** [a[mask]] for a boolean array [mask]: the entries at the true positions.
    The lengths must agree; [e] is the exception of the indexed container
    otherwise ([IndexError] for numpy, [TypeError] for an h5py dataset). *)
Fixpoint compress {A} (xs : list A) (mask : list bool) : list A :=
  match xs, mask with
  | x :: xs', b :: mask' =>
      if b then x :: compress xs' mask' else compress xs' mask'
  | _, _ => []
  end.

Definition bool_index {A} (e : exn) (xs : list A) (mask : list bool)
  : result (list A) :=
  if Nat.eqb (length xs) (length mask) then Ok (compress xs mask)
  else Raise e.

(** [a[idx]] for an array [idx] of non-negative positions. *)
Fixpoint fancy_index {A} (xs : list A) (idx : list nat) : result (list A) :=
  match idx with
  | [] => Ok []
  | i :: idx' =>
      match nth_error xs i with
      | None => Raise IndexError
      | Some x =>
          match fancy_index xs idx' with
          | Ok r => Ok (x :: r)
          | Raise e => Raise e
          end
      end
  end.

(** [np.arange(n)] *)
Definition arange (n : nat) : list nat := seq 0 n.

(** Signed 64-bit integers ([astype(int)]) and their wrapping subtraction. *)
Definition int64_min : Z := - 2 ^ 63.
Definition int64_max : Z := 2 ^ 63 - 1.

Definition is_int64 (z : Z) : Prop := int64_min <= z <= int64_max.

Definition wrap64 (z : Z) : Z := (z + 2 ^ 63) mod 2 ^ 64 - 2 ^ 63.

Definition sub64 (a b : Z) : Z := wrap64 (a - b).

(** [xs - ys] for two arrays of one shape, as in [a[1::] - a[:-1]]. *)
Definition sub_arrays (xs ys : list Z) : list Z :=
  map (fun p => sub64 (fst p) (snd p)) (combine xs ys).

(** [np.where(d)[0]]: the positions of the non-zero entries. *)
Fixpoint where_from (i : nat) (d : list Z) : list nat :=
  match d with
  | [] => []
  | x :: d' =>
      if x =? 0 then where_from (S i) d' else i :: where_from (S i) d'
  end.

Definition where_ (d : list Z) : list nat := where_from 0 d.

(** [np.round]: to the nearest integer, halves to the even neighbour. *)
Definition round (q : Q) : Z :=
  let f := Qfloor q in
  match Qcompare (q - inject_Z f) (1 # 2) with
  | Lt => f
  | Gt => f + 1
  | Eq => if Z.even f then f else f + 1
  end.

(** [astype(int)] of an integral float: the value when it fits, the
    minimal integer otherwise (what the conversion gives on x86-64). *)
Definition astype_int (z : Z) : Z :=
  if (int64_min <=? z) && (z <=? int64_max) then z else int64_min.

End Np.

(** ** The trigger extraction of [read_pramat] (lines 245-251) *)

(** [trig_event] and [times] are the squeezed trigger line and time vector.
    Slicing or indexing a zero-dimensional array raises [IndexError]. *)
Definition trigger_extract (trig_event : Np.squeezed Z) (times : Np.squeezed Q)
  : result (list Z * list Q) :=
  match trig_event with
  | Np.Arr0 _ => Raise IndexError
  | Np.Arr1 te =>
      (* keep only the first trigger changes (rm duplicates) *)
      let first_only :=
        map (fun i => (i + 1)%nat)
            (Np.where_ (Np.sub_arrays (tl te) (removelast te))) in
      (te1 <- Np.fancy_index te first_only ;;
       match times with
       | Np.Arr0 _ => Raise IndexError
       | Np.Arr1 ts =>
           ts1 <- Np.fancy_index ts first_only ;;
           (* remove inter zeros *)
           let nnz := map (fun c => negb (c =? 0)) te1 in
           ev <- Np.bool_index IndexError te1 nnz ;;
           tm <- Np.bool_index IndexError ts1 nnz ;;
           Ok (ev, tm)
       end)%res
  end.

(** ** Python strings and paths *)

Module Py.

(** [str.upper] on ASCII text: the letters a-z are shifted, every other
    character is kept. *)
Definition upper_ascii (c : ascii) : ascii :=
  let n := nat_of_ascii c in
  if ((97 <=? n) && (n <=? 122))%nat then ascii_of_nat (n - 32) else c.

Fixpoint upper (s : string) : string :=
  match s with
  | EmptyString => EmptyString
  | String c s' => String (upper_ascii c) (upper s')
  end.

(** [s.replace(' ', '')] *)
Fixpoint remove_spaces (s : string) : string :=
  match s with
  | EmptyString => EmptyString
  | String c s' =>
      if Ascii.eqb c " "%char then remove_spaces s'
      else String c (remove_spaces s')
  end.

(** The ASCII characters that [str.strip] removes. *)
Definition is_space (c : ascii) : bool :=
  let n := nat_of_ascii c in
  (((9 <=? n) && (n <=? 13)) || ((28 <=? n) && (n <=? 32)))%nat.

Fixpoint lstrip (s : string) : string :=
  match s with
  | EmptyString => EmptyString
  | String c s' => if is_space c then lstrip s' else s
  end.

Fixpoint rstrip (s : string) : string :=
  match s with
  | EmptyString => EmptyString
  | String c s' =>
      match rstrip s' with
      | EmptyString => if is_space c then EmptyString else String c EmptyString
      | r => String c r
      end
  end.

Definition strip (s : string) : string := rstrip (lstrip s).

(** [int(s)], as [astype(int)] applies it to each label, on ASCII text
    without NUL: blanks around the literal (tab, line feed, vertical tab,
    form feed, carriage return and space; the separators 28-31 that
    [str.strip] removes are not blanks here), an optional sign, then decimal
    digits, where one underscore may stand between two digits. *)
Definition is_blank (c : ascii) : bool :=
  let n := nat_of_ascii c in
  (((9 <=? n) && (n <=? 13)) || (n =? 32))%nat.

Fixpoint skip_blanks (s : string) : string :=
  match s with
  | EmptyString => EmptyString
  | String c s' => if is_blank c then skip_blanks s' else s
  end.

Fixpoint drop_blanks (s : string) : string :=
  match s with
  | EmptyString => EmptyString
  | String c s' =>
      match drop_blanks s' with
      | EmptyString => if is_blank c then EmptyString else String c EmptyString
      | r => String c r
      end
  end.

Definition digit (c : ascii) : option Z :=
  let n := nat_of_ascii c in
  if ((48 <=? n) && (n <=? 57))%nat then Some (Z.of_nat (n - 48)) else None.

(** [after_digit] tells that the previous character was a digit: an
    underscore is accepted only there, and the literal must end there. *)
Fixpoint digits (acc : Z) (after_digit : bool) (s : string) : option Z :=
  match s with
  | EmptyString => if after_digit then Some acc else None
  | String c s' =>
      match digit c with
      | Some d => digits (10 * acc + d) true s'
      | None =>
          if Ascii.eqb c "_"%char && after_digit then digits acc false s'
          else None
      end
  end.

Definition unsigned (s : string) : option Z := digits 0 false s.

Definition int (s : string) : option Z :=
  match drop_blanks (skip_blanks s) with
  | String "-"%char s' => option_map Z.opp (unsigned s')
  | String "+"%char s' => unsigned s'
  | s' => unsigned s'
  end.

(** [os.path.join] with two components (posixpath). *)
Definition startswith_sep (s : string) : bool :=
  match s with
  | String "/"%char _ => true
  | _ => false
  end.

Fixpoint endswith_sep (s : string) : bool :=
  match s with
  | EmptyString => false
  | String c EmptyString => Ascii.eqb c "/"%char
  | String _ s' => endswith_sep s'
  end.

Definition join (a b : string) : string :=
  if startswith_sep b then b
  else match a with
       | EmptyString => b
       | _ => if endswith_sep a then a ++ b else a ++ "/" ++ b
       end.

(** [xs[i]] on a list. *)
Definition getitem {A} (xs : list A) (i : nat) : result A :=
  match nth_error xs i with
  | Some x => Ok x
  | None => Raise IndexError
  end.

(** [xs[-1]] *)
Definition getlast {A} (xs : list A) : result A :=
  match xs with
  | [] => Raise IndexError
  | x :: xs' => Ok (last xs' x)
  end.

End Py.

(** ** The data the decoders expose *)

(** One analog signal of a Micromed segment. *)
Record AnalogSignal : Type := {
  name : string;
  units : string;
  sampling_rate : Q;
  samples : list Q
}.

(** One event channel of a Micromed segment.  neo builds [labels] and [times]
    from one table of trigger records (a code and a position each). *)
Record Event : Type := {
  records : list (string * Q)
}.

Definition labels (e : Event) : list string := map fst (records e).
Definition times (e : Event) : list Q := map snd (records e).

Record Segment : Type := {
  analogsignals : list AnalogSignal;
  events : list Event
}.

(** What one matrix-file backend finds under [H.channels]: the two list
    comprehensions of a backend block are evaluated one after the other and
    each may raise. *)
Record Header : Type := {
  h_name : result (list string);
  h_signalType : result (list string)
}.

(** The raw matrix file: [f['srate']], [f['time']] and [f['raw']] (one row per
    channel, the trigger line last). *)
Record RawFile : Type := {
  f_srate : Q;
  f_time : list Q;
  f_raw : list (list Q)
}.

(** The file system and the external decoders.  [detect_seeg_contacts] is the
    classifier of [seegpy.contacts.utils]: names, units and the expected unit
    to a membership mask. *)
Record World : Type := {
  isfile : string -> bool;
  isdir : string -> bool;
  listdir : string -> result (list string);
  micromed : string -> result Segment;
  detect_seeg_contacts : list string -> list string -> string -> list bool;
  h5py_header : string -> result Header;
  scipy_header : string -> result Header;
  mat73_header : string -> result Header;
  h5py_file : string -> result RawFile
}.

(** The tuple [(sf, raw, seeg_chan, trig_event, trig_time)] both readers
    return. *)
Record Recording : Type := {
  sf : Q;
  raw : list (list Q);
  seeg_chan : list string;
  trig_event : list Z;
  trig_time : list Q
}.

(** ** [read_contacts_trc] and [read_trc] *)

Definition read_contacts_trc (w : World) (path : string)
  : result (list string * list string) :=
  (seg <- micromed w path ;;
   let all_chan :=
     map (fun sig => Py.upper (Py.strip (Py.remove_spaces (name sig))))
         (analogsignals seg) in
   let units := map units (analogsignals seg) in
   Ok (all_chan, units))%res.

(** [np.array(labels).astype(int)] *)
Fixpoint labels_astype_int (ls : list string) : result (list Z) :=
  match ls with
  | [] => Ok []
  | l :: ls' =>
      match Py.int l with
      | None => Raise ValueError
      | Some z =>
          if (Np.int64_min <=? z) && (z <=? Np.int64_max) then
            match labels_astype_int ls' with
            | Ok r => Ok (z :: r)
            | Raise e => Raise e
            end
          else Raise OverflowError
      end
  end.

(** A squeezed sample vector as a row of the stacked table.  A signal of one
    sample is a scalar once squeezed, and [np.stack] then gives a vector of
    one entry per channel instead of a table: that entry is kept here as a
    row of one sample, so that the first axis (one entry per channel) is the
    same and only the shape along the samples is not told apart. *)
Definition as_row (a : Np.squeezed Q) : list Q :=
  match a with
  | Np.Arr0 x => [x]
  | Np.Arr1 l => l
  end.

(** The loop [for c in seeg_nb: raw += [seg.analogsignals[c].squeeze()]]. *)
Fixpoint collect_signals (sigs : list AnalogSignal) (seeg_nb : list nat)
  : result (list (list Q)) :=
  match seeg_nb with
  | [] => Ok []
  | c :: nb' =>
      (s <- Py.getitem sigs c ;;
       r <- collect_signals sigs nb' ;;
       Ok (as_row (Np.squeeze (samples s)) :: r))%res
  end.

(** [np.stack]: at least one array, all of one shape. *)
Definition same_length (n : nat) (row : list Q) : bool :=
  Nat.eqb (length row) n.

Definition stack (rows : list (list Q)) : result (list (list Q)) :=
  match rows with
  | [] => Raise ValueError
  | r :: rows' =>
      if forallb (same_length (length r)) rows' then Ok rows
      else Raise ValueError
  end.

(** The channel filtering of [read_trc].  Lines 125-126: the names and the
    positions at the mask-true places. *)
Definition mask_channels (ch_names : list string) (is_seeg : list bool)
  : result (list string * list nat) :=
  (seeg_chan <- Np.bool_index IndexError ch_names is_seeg ;;
   seeg_nb <- Np.bool_index IndexError (Np.arange (length ch_names)) is_seeg ;;
   Ok (seeg_chan, seeg_nb))%res.

(** Lines 139-142: the sample vectors at these positions, stacked row-wise. *)
Definition stack_signals (sigs : list AnalogSignal) (seeg_nb : list nat)
  : result (list (list Q)) :=
  (raw <- collect_signals sigs seeg_nb ;;
   stack raw)%res.

Definition read_trc (w : World) (bloc : string) : result Recording :=
  (Res.assert (isfile w bloc) ;;;
   (* sampling frequency *)
   seg <- micromed w bloc ;;
   sig0 <- Py.getitem (analogsignals seg) 0 ;;
   let sf := sampling_rate sig0 in
   (* channels *)
   names_units <- read_contacts_trc w bloc ;;
   let ch_names := fst names_units in
   let ch_units := snd names_units in
   let is_seeg := detect_seeg_contacts w ch_names ch_units "uV" in
   selected <- mask_channels ch_names is_seeg ;;
   let seeg_chan := fst selected in
   let seeg_nb := snd selected in
   (* triggers and raw *)
   seg <- micromed w bloc ;;
   _event <- Py.getitem (events seg) 0 ;;
   trig_event <- labels_astype_int (labels _event) ;;
   let trig_time := times _event in
   raw <- stack_signals (analogsignals seg) seeg_nb ;;
   Ok {| sf := sf; raw := raw; seeg_chan := seeg_chan;
         trig_event := trig_event; trig_time := trig_time |})%res.

(** ** [read_pramat] *)

Definition msg_multiple : string :=
  "Multiple matlab files detected. Forcing iEEG.mat".
Definition msg_hdf5 : string :=
  "Extraction failed with HDF5. Trying with scipy".
Definition msg_scipy : string :=
  "Extraction failed with scipy. Trying with mat73".

(** Lines 175-186: the paths of the header file and of the raw file. *)
Definition build_path (w : World) (mat_root : string)
  : Logged (string * string) :=
  ((* header file *)
   let path_head := Py.join mat_root "alignedData" in
   files_head <- Log.lift (listdir w path_head) ;;
   Log.lift (Res.assert (Nat.eqb (length files_head) 1)) ;;;
   file_head <- Log.lift (Py.getitem files_head 0) ;;
   let path_head := Py.join path_head file_head in
   (* raw file *)
   let path_raw := Py.join (Py.join mat_root "rawData") "amplifierData" in
   files_raw <- Log.lift (listdir w path_raw) ;;
   files_raw <-
     (if (1 <? length files_raw)%nat
      then Log.error msg_multiple ;;; Log.ret ["iEEG.mat"]
      else Log.ret files_raw) ;;
   Log.lift (Res.assert (Nat.eqb (length files_raw) 1)) ;;;
   file_raw <- Log.lift (Py.getitem files_raw 0) ;;
   let path_raw := Py.join path_raw file_raw in
   Log.ret (path_head, path_raw))%log.

(** The body of one backend block run from the variables [cn], [ct]: the file
    is decoded, then [cn] is assigned, then [ct].  The result is the value of
    the two variables when the block is left and the exception that left it,
    if any. *)
Definition decode_block (h : result Header) (cn ct : list string)
  : (list string * list string) * option exn :=
  match h with
  | Raise e => ((cn, ct), Some e)
  | Ok hd =>
      match h_name hd with
      | Raise e => ((cn, ct), Some e)
      | Ok cn' =>
          match h_signalType hd with
          | Raise e => ((cn', ct), Some e)
          | Ok ct' => ((cn', ct'), None)
          end
      end
  end.

(** The [except:] clause of a guarded block: one record when the block was
    left by an exception. *)
Definition logged (msg : string) (err : option exn) : log :=
  match err with
  | Some _ => [msg]
  | None => []
  end.

(** [(not len(cn)) and (not len(ct))] *)
Definition both_empty (cn ct : list string) : bool :=
  Nat.eqb (length cn) 0 && Nat.eqb (length ct) 0.

(** Lines 192-224: the three backend blocks.  The first two sit in a
    [try ... except:] that logs; the third is bare. *)
Definition decode_header (w : World) (path_head : string)
  : Logged (list string * list string) :=
  let cn := [] in
  let ct := [] in
  (* HDF5 *)
  let '((cn, ct), err) := decode_block (h5py_header w path_head) cn ct in
  let log_hdf5 := logged msg_hdf5 err in
  (* SCIPY *)
  let '((cn, ct), log_scipy) :=
    if both_empty cn ct then
      let '(st, err) := decode_block (scipy_header w path_head) cn ct in
      (st, logged msg_scipy err)
    else ((cn, ct), []) in
  (* MAT73 *)
  if both_empty cn ct then
    match decode_block (mat73_header w path_head) cn ct with
    | (_, Some e) => ((log_hdf5 ++ log_scipy)%list, Raise e)
    | (st, None) => ((log_hdf5 ++ log_scipy)%list, Ok st)
    end
  else ((log_hdf5 ++ log_scipy)%list, Ok (cn, ct)).

(** Lines 227-232: the integrity checks and the sEEG mask.  The labels are
    taken as text without NUL characters and the names as ASCII text, so
    that the comparison of the numpy string array with ['SEEG'] is string
    equality and [str.upper] is [Py.upper]. *)
Definition classify (cn ct : list string)
  : result (list string * list bool) :=
  (Res.assert (negb (Nat.eqb (length cn) 0)) ;;;
   Res.assert (negb (Nat.eqb (length ct) 0)) ;;;
   Res.assert (Nat.eqb (length cn) (length ct)) ;;;
   let ch_names := map Py.upper cn in
   let is_seeg := map (fun t => String.eqb t "SEEG") ct in
   seeg_chan <- Np.bool_index IndexError ch_names is_seeg ;;
   Ok (seeg_chan, is_seeg))%res.

(** Lines 238-253: the raw file. *)
Definition read_raw (w : World) (path_raw : string) (is_seeg : list bool)
  : result (Q * list (list Q) * list Z * list Q) :=
  (f <- h5py_file w path_raw ;;
   let sf := f_srate f in
   let times := Np.squeeze (f_time f) in
   row <- Py.getlast (f_raw f) ;;
   let trig_event :=
     Np.squeeze (map (fun x => Np.astype_int (Np.round x)) row) in
   trig <- trigger_extract trig_event times ;;
   raw <- Np.bool_index TypeError (f_raw f) is_seeg ;;
   Ok (sf, raw, fst trig, snd trig))%res.

(** Lines 192-255: what is read once the two paths are known. *)
Definition read_files (w : World) (path_head path_raw : string)
  : Logged Recording :=
  (header <- decode_header w path_head ;;
   chans <- Log.lift (classify (fst header) (snd header)) ;;
   let seeg_chan := fst chans in
   let is_seeg := snd chans in
   data <- Log.lift (read_raw w path_raw is_seeg) ;;
   let '(sf, raw, trig_event, trig_time) := data in
   Log.ret {| sf := sf; raw := raw; seeg_chan := seeg_chan;
              trig_event := trig_event; trig_time := trig_time |})%log.

Definition read_pramat (w : World) (mat_root : string) : Logged Recording :=
  (Log.lift (Res.assert (isdir w mat_root)) ;;;
   paths <- build_path w mat_root ;;
   read_files w (fst paths) (snd paths))%log.

(** ** The claimed behaviour, in the words of the specification *)

Module Spec.

(** Trigger Extractor, step 1: the positions whose value differs from the
    previous sample; position 0 is never a candidate. *)
Definition changed_positions (line : list Z) : list nat :=
  filter (fun i => negb (nth i line 0 =? nth (i - 1) line 0))
         (seq 1 (length line - 1)).

(** Step 2: the positions whose code is zero are dropped. *)
Definition kept_positions (line : list Z) : list nat :=
  filter (fun i => negb (nth i line 0 =? 0)) (changed_positions line).

(** Step 3: the surviving codes with their timestamps, in the original
    order. *)
Definition extract_events (line : list Z) (tms : list Q)
  : list Z * list Q :=
  (map (fun i => nth i line 0) (kept_positions line),
   map (fun i => nth i tms 0%Q) (kept_positions line)).

(** The entries at the mask-true positions, in their relative order. *)
Definition at_true {A} (xs : list A) (mask : list bool) : list A :=
  map fst (filter snd (combine xs mask)).

Definition count_true (mask : list bool) : nat :=
  length (filter (fun b : bool => b) mask).

(** One backend of the header chain: what it decodes, and the message
    logged when its block is guarded by [try ... except:] ([None] for a
    bare block, whose exception escapes). *)
Record Backend : Type := {
  decoded : result Header;
  guard : option string
}.

(** The fallback chain: a backend runs only while both lists are empty;
    the exception of a guarded backend is logged and the chain goes on
    from the lists as the block left them. *)
Fixpoint fallback (bs : list Backend) (cn ct : list string)
  : Logged (list string * list string) :=
  match bs with
  | [] => Log.ret (cn, ct)
  | b :: bs' =>
      if both_empty cn ct then
        match decode_block (decoded b) cn ct with
        | (st, None) => fallback bs' (fst st) (snd st)
        | (st, Some e) =>
            match guard b with
            | Some msg =>
                (Log.error msg ;;; fallback bs' (fst st) (snd st))%log
            | None => Log.lift (Raise e)
            end
        end
      else Log.ret (cn, ct)
  end.

Definition backends (w : World) (path_head : string) : list Backend :=
  [ {| decoded := h5py_header w path_head; guard := Some msg_hdf5 |};
    {| decoded := scipy_header w path_head; guard := Some msg_scipy |};
    {| decoded := mat73_header w path_head; guard := None |} ].

End Spec.

(** ** Concrete inputs *)

Module Sample.

Definition qs (l : list Z) : list Q := map inject_Z l.

Definition line : list Z := [0; 0; 5; 5; 0; 0; 3; 3; 3].
Definition line_times : list Q := qs [0; 1; 2; 3; 4; 5; 6; 7; 8].

(** A world with nothing on disk. *)
Definition empty : World := {|
  isfile := fun _ => false;
  isdir := fun _ => false;
  listdir := fun _ => Raise FileNotFoundError;
  micromed := fun _ => Raise FileNotFoundError;
  detect_seeg_contacts :=
    fun _ units unit => map (fun u => String.eqb u unit) units;
  h5py_header := fun _ => Raise OSError;
  scipy_header := fun _ => Raise OSError;
  mat73_header := fun _ => Raise OSError;
  h5py_file := fun _ => Raise FileNotFoundError
|}.

(** A Micromed file with two sEEG channels and one ECG channel. *)
Definition signal (n u : string) (xs : list Z) : AnalogSignal :=
  {| name := n; units := u; sampling_rate := 512; samples := qs xs |}.

Definition segment (sigs : list AnalogSignal) : Segment :=
  {| analogsignals := sigs;
     events := [ {| records := [("0", 1); ("5", 2); ("5", 3)]%Q |} ] |}.

Definition three_channels : list AnalogSignal :=
  [ signal "a 1" "uV" [1; 2; 3]; signal "a 2" "uV" [4; 5; 6];
    signal "ecg" "mV" [7; 8; 9] ].

Definition trc_path : string := "/data/bloc1.TRC".

Definition with_trc (sigs : list AnalogSignal) : World := {|
  isfile := fun p => String.eqb p trc_path;
  isdir := isdir empty;
  listdir := listdir empty;
  micromed := fun p =>
    if String.eqb p trc_path then Ok (segment sigs)
    else Raise FileNotFoundError;
  detect_seeg_contacts := detect_seeg_contacts empty;
  h5py_header := h5py_header empty;
  scipy_header := scipy_header empty;
  mat73_header := mat73_header empty;
  h5py_file := h5py_file empty
|}.

Definition trc : World := with_trc three_channels.

(** A matrix-file tree under [root]. *)
Definition root : string := "/data/PR7".
Definition dir_head : string := "/data/PR7/alignedData".
Definition dir_raw : string := "/data/PR7/rawData/amplifierData".
Definition file_head : string := "/data/PR7/alignedData/header.mat".
Definition file_raw : string := "/data/PR7/rawData/amplifierData/iEEG.mat".

Definition header : Header :=
  {| h_name := Ok ["a1"; "a2"; "ecg"; "trig"];
     h_signalType := Ok ["SEEG"; "SEEG"; "ECG"; "TRIG"] |}.

Definition rawfile : RawFile :=
  {| f_srate := 512;
     f_time := line_times;
     f_raw := [ qs [1; 2; 3; 4; 5; 6; 7; 8; 9];
                qs [9; 8; 7; 6; 5; 4; 3; 2; 1];
                qs [0; 1; 0; 1; 0; 1; 0; 1; 0];
                qs line ] |}.

(** The tree with the given listing of the raw directory, the given
    outcomes of the three header backends on the header file, and the raw
    file present or absent. *)
Definition tree (files_raw : list string) (h5 sc m73 : result Header)
  (present : bool) : World := {|
  isfile := isfile empty;
  isdir := fun p => String.eqb p root;
  listdir := fun p =>
    if String.eqb p dir_head then Ok ["header.mat"]
    else if String.eqb p dir_raw then Ok files_raw
    else Raise FileNotFoundError;
  micromed := micromed empty;
  detect_seeg_contacts := detect_seeg_contacts empty;
  h5py_header := fun p =>
    if String.eqb p file_head then h5 else Raise FileNotFoundError;
  scipy_header := fun p =>
    if String.eqb p file_head then sc else Raise FileNotFoundError;
  mat73_header := fun p =>
    if String.eqb p file_head then m73 else Raise FileNotFoundError;
  h5py_file := fun p =>
    if String.eqb p file_raw && present then Ok rawfile
    else Raise FileNotFoundError
|}.

(** A header whose names decode and whose types are missing or broken. *)
Definition names_only : Header :=
  {| h_name := Ok ["a1"]; h_signalType := Ok [] |}.
Definition types_broken : Header :=
  {| h_name := Ok ["a1"]; h_signalType := Raise KeyError |}.

(** What the readers return on these inputs. *)
Definition trc_recording : Recording :=
  {| sf := 512;
     raw := [qs [1; 2; 3]; qs [4; 5; 6]];
     seeg_chan := ["A1"; "A2"];
     trig_event := [0; 5; 5];
     trig_time := qs [1; 2; 3] |}.

Definition pramat_recording : Recording :=
  {| sf := 512;
     raw := [ qs [1; 2; 3; 4; 5; 6; 7; 8; 9];
              qs [9; 8; 7; 6; 5; 4; 3; 2; 1] ];
     seeg_chan := ["A1"; "A2"];
     trig_event := [5; 3];
     trig_time := qs [2; 6] |}.

(** A Micromed file without any sEEG channel. *)
Definition ecg_only : World := with_trc [signal "ecg" "mV" [7; 8; 9]].

End Sample.

(** ** [read_trm] and [read_3dslicer_fiducial] *)

Module Trm.

(** What [np.genfromtxt] returns: a scalar, a vector or a table of [ncols]
    columns (a file of one value, of one line or column, of several lines). *)
Inductive ndarray : Type :=
| A0 (x : Q)
| A1 (l : list Q)
| A2 (ncols : nat) (rows : list (list Q)).

(** Every row of a table has [ncols] entries. *)
Definition well_formed (a : ndarray) : Prop :=
  match a with
  | A2 n rows => Forall (fun r => length r = n) rows
  | _ => True
  end.

(** [np.c_[a, v]] for a table [a] and a vector [v]: [v] is appended as a
    last column; [a] must have as many rows as [v] has entries. *)
Definition c_ (ncols : nat) (rows : list (list Q)) (v : list Q)
  : result ndarray :=
  if Nat.eqb (length rows) (length v)
  then Ok (A2 (ncols + 1)
              (map (fun p => (fst p ++ [snd p])%list) (combine rows v)))
  else Raise ValueError.

(** [np.vstack((a, row))]: [row] is appended as a last row; [a], taken as a
    table, must have as many columns as [row] has entries. *)
Definition vstack (a : ndarray) (row : list Q) : result ndarray :=
  let '(n, rows) :=
    match a with
    | A0 x => (1%nat, [[x]])
    | A1 l => (length l, [l])
    | A2 n rows => (n, rows)
    end in
  if Nat.eqb n (length row) then Ok (A2 n (rows ++ [row])%list)
  else Raise ValueError.

(** Line 35: [np.vstack((np.c_[tr[1::, :], tr[0, :]], np.array([0, 0, 0, 1])))].
    The two-index slices raise [IndexError] on a scalar or a vector. *)
Definition as_transform_array (tr : ndarray) : result ndarray :=
  match tr with
  | A2 n rows =>
      (first <- Py.getitem rows 0 ;;
       m <- c_ n (tl rows) first ;;
       vstack m [0; 0; 0; 1]%Q)%res
  | _ => Raise IndexError
  end.

(** [read_trm], over the two numpy functions it calls: [genfromtxt] reads
    the file and [inv] is [np.linalg.inv]. *)
Definition read_trm (genfromtxt : string -> result ndarray)
  (inv : ndarray -> result ndarray) (path : string)
  (as_transform inverse : bool) : result ndarray :=
  (tr <- genfromtxt path ;;
   tr <- (if as_transform then as_transform_array tr else Ok tr) ;;
   if inverse then inv tr else Ok tr)%res.

End Trm.

Module Fcsv.

(** A data frame: its columns in order, each a label and its cells.  The
    labels are pairwise distinct ([pd.read_csv] renames a repeated one). *)
Definition DataFrame : Type := list (string * list string).

(** [df[names]]: the named columns, in the order of [names]; a label that
    is no column raises [KeyError]. *)
Definition column (df : DataFrame) (label : string)
  : result (string * list string) :=
  match find (fun c => String.eqb (fst c) label) df with
  | Some c => Ok c
  | None => Raise KeyError
  end.

Fixpoint select (df : DataFrame) (names : list string) : result DataFrame :=
  match names with
  | [] => Ok []
  | n :: names' =>
      (c <- column df n ;;
       r <- select df names' ;;
       Ok (c :: r))%res
  end.

(** [read_3dslicer_fiducial], over [pd.read_csv] (the path and the rows to
    skip). *)
Definition read_3dslicer_fiducial
  (read_csv : string -> list nat -> result DataFrame) (path : string)
  : result DataFrame :=
  (df <- read_csv path [0; 1]%nat ;;
   select df ["label"; "x"; "y"; "z"])%res.

End Fcsv.

(** ** More concrete inputs *)

Module Cases.

(** A tree whose header directory lists two files. *)
Definition two_headers : World := {|
  isfile := isfile Sample.empty;
  isdir := fun p => String.eqb p Sample.root;
  listdir := fun p =>
    if String.eqb p Sample.dir_head then Ok ["header.mat"; "old.mat"]
    else if String.eqb p Sample.dir_raw then Ok ["a.mat"; "iEEG.mat"]
    else Raise FileNotFoundError;
  micromed := micromed Sample.empty;
  detect_seeg_contacts := detect_seeg_contacts Sample.empty;
  h5py_header := fun _ => Ok Sample.header;
  scipy_header := scipy_header Sample.empty;
  mat73_header := mat73_header Sample.empty;
  h5py_file := fun _ => Ok Sample.rawfile
|}.

(** A Micromed file whose classifier returns a mask of the wrong length. *)
Definition short_mask : World := {|
  isfile := isfile Sample.trc;
  isdir := isdir Sample.trc;
  listdir := listdir Sample.trc;
  micromed := micromed Sample.trc;
  detect_seeg_contacts := fun _ _ _ => [true];
  h5py_header := h5py_header Sample.trc;
  scipy_header := scipy_header Sample.trc;
  mat73_header := mat73_header Sample.trc;
  h5py_file := h5py_file Sample.trc
|}.

(** A matrix-file tree whose raw file holds one sample per row; the trigger
    row is the constant line [7]. *)
Definition one_sample_file : RawFile :=
  {| f_srate := 512;
     f_time := Sample.qs [0];
     f_raw := [ Sample.qs [1]; Sample.qs [2]; Sample.qs [0]; Sample.qs [7] ]
  |}.

Definition one_sample : World := {|
  isfile := isfile Sample.empty;
  isdir := fun p => String.eqb p Sample.root;
  listdir := fun p =>
    if String.eqb p Sample.dir_head then Ok ["header.mat"]
    else if String.eqb p Sample.dir_raw then Ok ["iEEG.mat"]
    else Raise FileNotFoundError;
  micromed := micromed Sample.empty;
  detect_seeg_contacts := detect_seeg_contacts Sample.empty;
  h5py_header := fun p =>
    if String.eqb p Sample.file_head then Ok Sample.header
    else Raise FileNotFoundError;
  scipy_header := scipy_header Sample.empty;
  mat73_header := mat73_header Sample.empty;
  h5py_file := fun p =>
    if String.eqb p Sample.file_raw then Ok one_sample_file
    else Raise FileNotFoundError
|}.

(** A transformation file: the translation on the first line, the rotation
    on the next three. *)
Definition trm : Trm.ndarray :=
  Trm.A2 3 [ Sample.qs [10; 20; 30];
             Sample.qs [1; 0; 0];
             Sample.qs [0; 0; -1];
             Sample.qs [0; 1; 0] ].

Definition trm_transform : Trm.ndarray :=
  Trm.A2 4 [ Sample.qs [1; 0; 0; 10];
             Sample.qs [0; 0; -1; 20];
             Sample.qs [0; 1; 0; 30];
             Sample.qs [0; 0; 0; 1] ].

Definition genfromtxt (path : string) : result Trm.ndarray :=
  if String.eqb path "/data/t1.trm" then Ok trm
  else if String.eqb path "/data/line.trm"
       then Ok (Trm.A1 (Sample.qs [1; 2; 3]))
       else Raise FileNotFoundError.

Definition no_inv (a : Trm.ndarray) : result Trm.ndarray :=
  Raise ValueError.

(** A fiducial table as [pd.read_csv] returns it. *)
Definition fiducials : Fcsv.DataFrame :=
  [ ("id", ["1"; "2"]); ("x", ["1.5"; "2.5"]); ("y", ["0"; "1"]);
    ("z", ["3"; "4"]); ("sel", ["1"; "1"]); ("label", ["A1"; "A2"]) ].

Definition read_csv (path : string) (skiprows : list nat)
  : result Fcsv.DataFrame :=
  if String.eqb path "/data/f.fcsv" then Ok fiducials
  else Raise FileNotFoundError.

End Cases.

Unset Implicit Arguments.

Ltac int64_range :=
  repeat (apply Forall_cons || apply Forall_nil);
  unfold Np.is_int64, Np.int64_min, Np.int64_max; lia.

(** ** Results and logs: inversion *)

Lemma res_bind_ok {A B} (m : result A) (k : A -> result B) (b : B) :
  Res.bind m k = Ok b -> exists a, m = Ok a /\ k a = Ok b.
Proof.
  destruct m as [a | e]; simpl; intros H.
  - exists a; split; [reflexivity | exact H].
  - discriminate H.
Qed.

Lemma res_assert_ok (c : bool) (u : unit) :
  Res.assert c = Ok u -> c = true.
Proof.
  destruct c; simpl; [reflexivity | discriminate].
Qed.

Lemma log_bind_ok {A B} (m : Logged A) (k : A -> Logged B) lg (b : B) :
  Log.bind m k = (lg, Ok b) ->
  exists l1 a l2, m = (l1, Ok a) /\ k a = (l2, Ok b) /\ lg = (l1 ++ l2)%list.
Proof.
  destruct m as [l1 [a | e]]; simpl.
  - destruct (k a) as [l2 r] eqn:Hk. intros H. inversion H; subst.
    exists l1, a, l2. split; [reflexivity | split; [exact Hk | reflexivity]].
  - intros H; inversion H.
Qed.

Lemma log_lift_ok {A} (r : result A) lg (a : A) :
  Log.lift r = (lg, Ok a) -> r = Ok a /\ lg = [].
Proof.
  unfold Log.lift. intros H; inversion H; subst. split; reflexivity.
Qed.

Ltac res_inv H :=
  let a := fresh "v" in
  let Ha := fresh "E" in
  apply res_bind_ok in H; destruct H as (a & Ha & H).

Ltac log_inv H :=
  let l1 := fresh "lg" in
  let a := fresh "v" in
  let l2 := fresh "lg" in
  let Ha := fresh "E" in
  let Hl := fresh "Elog" in
  apply log_bind_ok in H; destruct H as (l1 & a & l2 & Ha & H & Hl).

(** ** Boolean masks and index arrays *)

Lemma compress_at_true {A} (xs : list A) (mask : list bool) :
  Np.compress xs mask = Spec.at_true xs mask.
Proof.
  unfold Spec.at_true. revert mask.
  induction xs as [| x xs IH]; intros [| b mask]; simpl; try reflexivity.
  destruct b; simpl; rewrite IH; reflexivity.
Qed.

Lemma compress_length {A} (xs : list A) (mask : list bool) :
  length xs = length mask ->
  length (Np.compress xs mask) = Spec.count_true mask.
Proof.
  unfold Spec.count_true. revert mask.
  induction xs as [| x xs IH]; intros [| b mask]; simpl; intros H;
    try reflexivity; try discriminate H.
  injection H as H. destruct b; simpl; rewrite (IH _ H); reflexivity.
Qed.

Lemma compress_map {A B} (f : A -> B) (xs : list A) (mask : list bool) :
  Np.compress (map f xs) mask = map f (Np.compress xs mask).
Proof.
  revert mask.
  induction xs as [| x xs IH]; intros [| b mask]; simpl; try reflexivity.
  destruct b; simpl; rewrite IH; reflexivity.
Qed.

Lemma compress_map_filter {A B} (f : A -> B) (p : A -> bool) (xs : list A) :
  Np.compress (map f xs) (map p xs) = map f (filter p xs).
Proof.
  induction xs as [| x xs IH]; simpl; [reflexivity |].
  destruct (p x); simpl; rewrite IH; reflexivity.
Qed.

Lemma bool_index_ok {A} (e : exn) (xs : list A) (mask : list bool) r :
  Np.bool_index e xs mask = Ok r ->
  length xs = length mask /\ r = Np.compress xs mask.
Proof.
  unfold Np.bool_index.
  destruct (Nat.eqb (length xs) (length mask)) eqn:E; intros H.
  - apply Nat.eqb_eq in E. inversion H. split; [exact E | reflexivity].
  - discriminate H.
Qed.

Lemma bool_index_eq {A} (e : exn) (xs : list A) (mask : list bool) :
  length xs = length mask ->
  Np.bool_index e xs mask = Ok (Np.compress xs mask).
Proof.
  intros H. unfold Np.bool_index.
  apply Nat.eqb_eq in H. rewrite H. reflexivity.
Qed.

Lemma fancy_index_in_range {A} (d : A) (xs : list A) (idx : list nat) :
  (forall i, In i idx -> (i < length xs)%nat) ->
  Np.fancy_index xs idx = Ok (map (fun i => nth i xs d) idx).
Proof.
  induction idx as [| i idx IH]; intros H; simpl; [reflexivity |].
  assert (Hi : (i < length xs)%nat) by (apply H; left; reflexivity).
  destruct (nth_error xs i) as [x |] eqn:E.
  - rewrite IH by (intros j Hj; apply H; right; exact Hj).
    rewrite (nth_error_nth xs i d E). reflexivity.
  - apply nth_error_None in E. lia.
Qed.

(** ** The first-difference rule *)

Lemma sub64_zero (a b : Z) :
  Np.is_int64 a -> Np.is_int64 b -> (Np.sub64 a b =? 0) = (a =? b).
Proof.
  unfold Np.is_int64, Np.int64_min, Np.int64_max, Np.sub64, Np.wrap64.
  intros Ha Hb.
  destruct (Z.eqb_spec a b) as [-> | Hne].
  - rewrite Z.sub_diag. reflexivity.
  - apply Z.eqb_neq. intros H.
    assert (Hm : (a - b + 2 ^ 63) mod 2 ^ 64 = 2 ^ 63) by lia.
    pose proof (Z.div_mod (a - b + 2 ^ 63) (2 ^ 64) ltac:(lia)) as Hd.
    rewrite Hm in Hd.
    assert (Hq : -1 <= (a - b + 2 ^ 63) / 2 ^ 64 <= 1).
    { split.
      - apply Z.div_le_lower_bound; lia.
      - apply Z.lt_succ_r. apply Z.div_lt_upper_bound; lia. }
    lia.
Qed.

Lemma sub64_diag (c : Z) : Np.sub64 c c = 0.
Proof.
  unfold Np.sub64, Np.wrap64. rewrite Z.sub_diag. reflexivity.
Qed.

Lemma where_from_shift (i : nat) (d : list Z) :
  Np.where_from (S i) d = map S (Np.where_from i d).
Proof.
  revert i. induction d as [| x d IH]; intros i; simpl; [reflexivity |].
  destruct (x =? 0); simpl; rewrite IH; reflexivity.
Qed.

Lemma where_from_zeros (i : nat) (d : list Z) :
  Forall (fun x => x = 0) d -> Np.where_from i d = [].
Proof.
  intros H. revert i. induction H as [| x d Hx _ IH]; intros i; simpl.
  - reflexivity.
  - subst x. simpl. apply IH.
Qed.

Lemma filter_seq_shift (f : nat -> bool) (a n : nat) :
  filter f (seq (S a) n) = map S (filter (fun i => f (S i)) (seq a n)).
Proof.
  rewrite <- seq_shift. induction (seq a n) as [| x l IH]; simpl.
  - reflexivity.
  - destruct (f (S x)); simpl; rewrite IH; reflexivity.
Qed.

Lemma first_changes_cons (c0 : Z) (l : list Z) :
  Forall Np.is_int64 (c0 :: l) ->
  map (fun i => (i + 1)%nat)
      (Np.where_ (Np.sub_arrays l (removelast (c0 :: l))))
  = Spec.changed_positions (c0 :: l).
Proof.
  unfold Np.where_, Spec.changed_positions.
  revert c0. induction l as [| c1 l IH]; intros c0 Hr.
  - reflexivity.
  - inversion Hr as [| ? ? H0 Hr']; subst.
    inversion Hr' as [| ? ? H1 _]; subst.
    specialize (IH c1 Hr').
    change (removelast (c0 :: c1 :: l)) with (c0 :: removelast (c1 :: l)).
    change (length (c0 :: c1 :: l) - 1)%nat with (S (length l) - 0)%nat.
    change (length (c1 :: l) - 1)%nat with (length l - 0)%nat in IH.
    rewrite Nat.sub_0_r in *.
    cbn [Np.sub_arrays combine map fst snd Np.where_from].
    fold (Np.sub_arrays l (removelast (c1 :: l))).
    rewrite where_from_shift.
    cbn [seq filter nth Nat.sub].
    rewrite (sub64_zero _ _ H1 H0).
    rewrite filter_seq_shift.
    rewrite (filter_ext_in
               (fun i => negb (nth (S i) (c0 :: c1 :: l) 0
                               =? nth (S i - 1) (c0 :: c1 :: l) 0))
               (fun i => negb (nth i (c1 :: l) 0 =? nth (i - 1) (c1 :: l) 0))).
    2:{ intros i Hi. apply in_seq in Hi.
        destruct i as [| i]; [lia |].
        cbn [nth Nat.sub]. rewrite Nat.sub_0_r. reflexivity. }
    rewrite <- IH.
    assert (Hs : forall W : list nat,
               map (fun i => (i + 1)%nat) (map S W)
               = map S (map (fun i => (i + 1)%nat) W)).
    { intros W. rewrite !map_map. apply map_ext. intros i. reflexivity. }
    destruct (c1 =? c0); cbn [negb map]; rewrite Hs; reflexivity.
Qed.

Lemma first_changes (line : list Z) :
  Forall Np.is_int64 line ->
  map (fun i => (i + 1)%nat)
      (Np.where_ (Np.sub_arrays (tl line) (removelast line)))
  = Spec.changed_positions line.
Proof.
  destruct line as [| c0 l]; intros H.
  - reflexivity.
  - apply (first_changes_cons _ _ H).
Qed.

Lemma changed_positions_in_range (line : list Z) (i : nat) :
  In i (Spec.changed_positions line) -> (i < length line)%nat.
Proof.
  unfold Spec.changed_positions. intros H.
  apply filter_In in H. destruct H as [H _]. apply in_seq in H. lia.
Qed.

Lemma in_removelast {A} (x : A) (l : list A) :
  In x (removelast l) -> In x l.
Proof.
  induction l as [| a l IH]; simpl; [tauto |].
  destruct l as [| b l]; [simpl; tauto |].
  intros [H | H]; [left; exact H | right; apply IH; exact H].
Qed.

Lemma in_tl {A} (x : A) (l : list A) : In x (tl l) -> In x l.
Proof.
  destruct l; simpl; [tauto | intros H; right; exact H].
Qed.

Lemma sub_arrays_constant (c : Z) (xs ys : list Z) :
  (forall x, In x xs -> x = c) -> (forall y, In y ys -> y = c) ->
  Forall (fun d => d = 0) (Np.sub_arrays xs ys).
Proof.
  intros Hx Hy. unfold Np.sub_arrays. apply Forall_forall.
  intros d Hd. apply in_map_iff in Hd. destruct Hd as ([x y] & <- & Hin).
  simpl. rewrite (Hx x (in_combine_l _ _ _ _ Hin)).
  rewrite (Hy y (in_combine_r _ _ _ _ Hin)). apply sub64_diag.
Qed.

(** ** The trigger extraction *)

Lemma filter_sorted (f : nat -> bool) (l : list nat) :
  StronglySorted lt l -> StronglySorted lt (filter f l).
Proof.
  induction 1 as [| x l Hs IH Hx]; simpl.
  - constructor.
  - destruct (f x); [| exact IH].
    constructor; [exact IH |].
    apply Forall_forall. intros y Hy.
    apply filter_In in Hy. destruct Hy as [Hy _].
    rewrite Forall_forall in Hx. apply Hx. exact Hy.
Qed.

Lemma seq_sorted (a n : nat) : StronglySorted lt (seq a n).
Proof.
  revert a. induction n as [| n IH]; intros a; simpl.
  - constructor.
  - constructor; [apply IH |].
    apply Forall_forall. intros x Hx. apply in_seq in Hx. lia.
Qed.

Lemma kept_positions_spec (line : list Z) (i : nat) :
  In i (Spec.kept_positions line) <->
  (1 <= i < length line)%nat
  /\ nth i line 0 <> nth (i - 1) line 0
  /\ nth i line 0 <> 0.
Proof.
  unfold Spec.kept_positions, Spec.changed_positions.
  rewrite !filter_In, in_seq, !negb_true_iff, !Z.eqb_neq.
  split.
  - intros [[Hi Hc] Hz]. repeat split; try assumption; lia.
  - intros [Hi [Hc Hz]]. repeat split; try assumption; lia.
Qed.

Lemma trigger_extract_spec (line : list Z) (tms : list Q) :
  Forall Np.is_int64 line ->
  length tms = length line ->
  trigger_extract (Np.Arr1 line) (Np.Arr1 tms)
  = Ok (Spec.extract_events line tms).
Proof.
  intros Hr Hlen. unfold trigger_extract.
  rewrite (first_changes _ Hr).
  rewrite (fancy_index_in_range 0 line (Spec.changed_positions line))
    by apply changed_positions_in_range.
  cbn [Res.bind].
  rewrite (fancy_index_in_range 0%Q tms (Spec.changed_positions line))
    by (intros i Hi; rewrite Hlen; revert Hi;
        apply changed_positions_in_range).
  cbn [Res.bind].
  rewrite !bool_index_eq by (rewrite !length_map; reflexivity).
  cbn [Res.bind].
  rewrite map_map.
  rewrite !(compress_map_filter _ (fun i => negb (nth i line 0 =? 0))).
  reflexivity.
Qed.

(** C2: on the trigger line [0,0,5,5,0,0,3,3,3] with times [0..8] the
    extraction returns the events [5,3] at the times [2,6].  In general, for
    a line of 64-bit codes and a time vector of the same length, it returns
    the codes and timestamps at the kept positions, in increasing position
    order, where a position [i] is kept exactly when [1 <= i], the value at
    [i] differs from the value at [i-1], and the value at [i] is not zero. *)
Theorem trigger_extract_leading_edges :
  trigger_extract (Np.Arr1 [0; 0; 5; 5; 0; 0; 3; 3; 3])
    (Np.Arr1 (map inject_Z [0; 1; 2; 3; 4; 5; 6; 7; 8]))
  = Ok ([5; 3], map inject_Z [2; 6])
  /\ (forall (line : list Z) (tms : list Q),
         Forall Np.is_int64 line ->
         length tms = length line ->
         trigger_extract (Np.Arr1 line) (Np.Arr1 tms)
         = Ok (map (fun i => nth i line 0) (Spec.kept_positions line),
               map (fun i => nth i tms 0%Q) (Spec.kept_positions line)))
  /\ (forall (line : list Z) (i : nat),
         In i (Spec.kept_positions line) <->
         (1 <= i < length line)%nat
         /\ nth i line 0 <> nth (i - 1) line 0
         /\ nth i line 0 <> 0)
  /\ (forall line : list Z, StronglySorted lt (Spec.kept_positions line)).
Proof.
  split; [reflexivity |].
  split; [exact trigger_extract_spec |].
  split; [exact kept_positions_spec |].
  intros line. unfold Spec.kept_positions, Spec.changed_positions.
  apply filter_sorted, filter_sorted, seq_sorted.
Qed.

Lemma trigger_extract_leading_edges_witness :
  Forall Np.is_int64 [0; 4; 4; 0; 0; 9]
  /\ length (map inject_Z [10; 11; 12; 13; 14; 15])
     = length [0; 4; 4; 0; 0; 9]
  /\ trigger_extract (Np.Arr1 [0; 4; 4; 0; 0; 9])
       (Np.Arr1 (map inject_Z [10; 11; 12; 13; 14; 15]))
     = Ok (map (fun i => nth i [0; 4; 4; 0; 0; 9] 0)
               (Spec.kept_positions [0; 4; 4; 0; 0; 9]),
           map (fun i => nth i (map inject_Z [10; 11; 12; 13; 14; 15]) 0%Q)
               (Spec.kept_positions [0; 4; 4; 0; 0; 9])).
Proof.
  assert (Hr : Forall Np.is_int64 [0; 4; 4; 0; 0; 9]) by int64_range.
  split; [exact Hr |].
  split; [reflexivity |].
  exact (proj1 (proj2 trigger_extract_leading_edges)
           [0; 4; 4; 0; 0; 9] (map inject_Z [10; 11; 12; 13; 14; 15])
           Hr eq_refl).
Defined.

(** On a one-dimensional array of identical values, whatever its length,
    lines 245-251 return two empty arrays. *)
Lemma trigger_extract_constant_array :
  (forall (c : Z) (n : nat) (tms : list Q),
      trigger_extract (Np.Arr1 (repeat c n)) (Np.Arr1 tms) = Ok ([], []))
  /\ trigger_extract (Np.Arr1 [7; 7; 7]) (Np.Arr1 (map inject_Z [0; 1; 2]))
     = Ok ([], [])
  /\ trigger_extract (Np.Arr1 [0; 0; 0]) (Np.Arr1 (map inject_Z [0; 1; 2]))
     = Ok ([], []).
Proof.
  assert (H : forall (c : Z) (n : nat) (tms : list Q),
             trigger_extract (Np.Arr1 (repeat c n)) (Np.Arr1 tms)
             = Ok ([], [])).
  { intros c n tms. unfold trigger_extract, Np.where_.
    rewrite where_from_zeros; [reflexivity |].
    apply (sub_arrays_constant c).
    - intros x Hx. apply in_tl in Hx. exact (repeat_spec n c x Hx).
    - intros y Hy. apply in_removelast in Hy. exact (repeat_spec n c y Hy). }
  split; [exact H |].
  split; [exact (H 7 3%nat _) | exact (H 0 3%nat _)].
Qed.

(** ** The vendor binary reader *)

Lemma labels_astype_int_ok (ls : list string) (zs : list Z) :
  labels_astype_int ls = Ok zs ->
  Forall2 (fun l z => Py.int l = Some z) ls zs.
Proof.
  revert zs. induction ls as [| l ls IH]; simpl; intros zs H.
  - inversion H. constructor.
  - destruct (Py.int l) as [z |] eqn:El; [| discriminate H].
    destruct ((Np.int64_min <=? z) && (z <=? Np.int64_max));
      [| discriminate H].
    destruct (labels_astype_int ls) as [r | e]; [| discriminate H].
    inversion H; subst. constructor; [exact El | apply IH; reflexivity].
Qed.

Lemma collect_signals_length (sigs : list AnalogSignal) (nb : list nat) rows :
  collect_signals sigs nb = Ok rows -> length rows = length nb.
Proof.
  revert rows. induction nb as [| c nb IH]; simpl; intros rows H.
  - inversion H. reflexivity.
  - res_inv H. res_inv H. inversion H; subst. simpl.
    f_equal. apply IH. assumption.
Qed.

Lemma as_row_squeeze (l : list Q) : as_row (Np.squeeze l) = l.
Proof.
  destruct l as [| x [| y l]]; reflexivity.
Qed.

Lemma collect_signals_in_range (sigs : list AnalogSignal) (nb : list nat) :
  (forall i, In i nb -> (i < length sigs)%nat) ->
  collect_signals sigs nb
  = Ok (map (fun i => nth i (map samples sigs) []) nb).
Proof.
  induction nb as [| c nb IH]; intros H; simpl; [reflexivity |].
  assert (Hc : (c < length sigs)%nat) by (apply H; left; reflexivity).
  unfold Py.getitem.
  destruct (nth_error sigs c) as [s |] eqn:E.
  - cbn [Res.bind]. rewrite IH by (intros j Hj; apply H; right; exact Hj).
    cbn [Res.bind]. rewrite as_row_squeeze. f_equal. f_equal.
    symmetry. apply nth_error_nth. rewrite nth_error_map, E. reflexivity.
  - apply nth_error_None in E. lia.
Qed.

Lemma stack_ok (rows r : list (list Q)) :
  stack rows = Ok r -> r = rows /\ rows <> [].
Proof.
  unfold stack. destruct rows as [| x rows]; [discriminate |].
  destruct (forallb (same_length (length x)) rows); [| discriminate].
  intros H; inversion H. split; [reflexivity | discriminate].
Qed.

Lemma stack_same_length (n : nat) (rows : list (list Q)) :
  rows <> [] -> Forall (fun row => length row = n) rows ->
  stack rows = Ok rows.
Proof.
  intros Hne Hall. unfold stack. destruct rows as [| x rows]; [congruence |].
  inversion Hall as [| ? ? Hx Hrest]; subst.
  replace (forallb (same_length (length x)) rows) with true; [reflexivity |].
  symmetry. apply forallb_forall. intros row Hrow.
  rewrite Forall_forall in Hrest. unfold same_length.
  apply Nat.eqb_eq. apply Hrest. exact Hrow.
Qed.

Lemma compress_seq_shift (a n : nat) (mask : list bool) :
  Np.compress (seq (S a) n) mask = map S (Np.compress (seq a n) mask).
Proof.
  rewrite <- seq_shift. apply compress_map.
Qed.

Lemma compress_by_position {A} (d : A) (xs : list A) (mask : list bool) :
  Np.compress xs mask
  = map (fun i => nth i xs d) (Np.compress (seq 0 (length xs)) mask).
Proof.
  revert mask. induction xs as [| x xs IH]; intros [| b mask]; simpl;
    try reflexivity.
  destruct b; simpl; rewrite compress_seq_shift, map_map; simpl;
    rewrite <- IH; reflexivity.
Qed.

Lemma compress_seq_in_range (n : nat) (mask : list bool) (i : nat) :
  In i (Np.compress (seq 0 n) mask) -> (i < n)%nat.
Proof.
  rewrite compress_at_true. unfold Spec.at_true. intros H.
  apply in_map_iff in H. destruct H as ([j b] & <- & H).
  apply filter_In in H. destruct H as [H _].
  apply in_combine_l in H. apply in_seq in H. simpl. lia.
Qed.

Lemma compress_nonempty {A} (xs : list A) (mask : list bool) :
  length xs = length mask -> In true mask -> Np.compress xs mask <> [].
Proof.
  revert mask. induction xs as [| x xs IH]; intros [| b mask] Hl Hin;
    simpl in *; try tauto; try discriminate.
  injection Hl as Hl. destruct b; [discriminate |].
  destruct Hin as [Hin | Hin]; [discriminate |]. apply IH; assumption.
Qed.

Lemma compress_Forall {A} (P : A -> Prop) (xs : list A) (mask : list bool) :
  Forall P xs -> Forall P (Np.compress xs mask).
Proof.
  intros H. revert mask. induction H as [| x xs Hx _ IH]; intros [| b mask];
    simpl; try constructor.
  destruct b; [constructor; [exact Hx | apply IH] | apply IH].
Qed.

Lemma mask_channels_ok (names : list string) (mask : list bool) chan nb :
  mask_channels names mask = Ok (chan, nb) ->
  length names = length mask
  /\ chan = Np.compress names mask
  /\ nb = Np.compress (seq 0 (length names)) mask.
Proof.
  unfold mask_channels. intros H. res_inv H. res_inv H.
  inversion H; subst.
  apply bool_index_ok in E. apply bool_index_ok in E0.
  destruct E as [Hl ->]. destruct E0 as [_ ->].
  repeat split; [exact Hl].
Qed.

Lemma mask_channels_eq (names : list string) (mask : list bool) :
  length names = length mask ->
  mask_channels names mask
  = Ok (Np.compress names mask, Np.compress (seq 0 (length names)) mask).
Proof.
  intros H. unfold mask_channels, Np.arange.
  rewrite !bool_index_eq by (rewrite ?length_seq; exact H).
  reflexivity.
Qed.

(** What a successful [read_trc] has read. *)
Lemma read_trc_ok (w : World) (bloc : string) (r : Recording) :
  read_trc w bloc = Ok r ->
  exists seg sig0 ev names_units nb,
    isfile w bloc = true
    /\ micromed w bloc = Ok seg
    /\ Py.getitem (analogsignals seg) 0 = Ok sig0
    /\ read_contacts_trc w bloc = Ok names_units
    /\ mask_channels (fst names_units)
         (detect_seeg_contacts w (fst names_units) (snd names_units) "uV")
       = Ok (seeg_chan r, nb)
    /\ Py.getitem (events seg) 0 = Ok ev
    /\ labels_astype_int (labels ev) = Ok (trig_event r)
    /\ trig_time r = times ev
    /\ stack_signals (analogsignals seg) nb = Ok (raw r)
    /\ sf r = sampling_rate sig0.
Proof.
  unfold read_trc. intros H.
  res_inv H. apply res_assert_ok in E.
  res_inv H. res_inv H. res_inv H. res_inv H. res_inv H. res_inv H.
  res_inv H. res_inv H.
  inversion H; subst; clear H. simpl.
  rewrite E0 in E4. inversion E4; subst.
  exists v4, v1, v5, v2, (snd v3).
  destruct v3 as [chan nb]. simpl in *.
  repeat split; assumption.
Qed.

Lemma read_trc_trigger_lengths
  (w : World) (bloc : string) (r : Recording) :
  read_trc w bloc = Ok r -> length (trig_event r) = length (trig_time r).
Proof.
  intros H. apply read_trc_ok in H.
  destruct H as (seg & sig0 & ev & nu & nb & _ & _ & _ & _ & _ & _
                 & Hlab & Htime & _).
  apply labels_astype_int_ok, Forall2_length in Hlab.
  rewrite Htime, <- Hlab. unfold labels, times. rewrite !length_map.
  reflexivity.
Qed.

(** C1 (as stated, refuted): on a Micromed file whose trigger labels are
    0, 5, 5 the reader returns the codes [0,5,5] with the times [1,2,3]: a
    zero code and a repeated code are both returned, whereas the trigger
    extraction of the matrix reader gives [5] at time [2] on the same
    stream. *)
Lemma read_trc_keeps_zero_and_repeated_codes :
  read_trc Sample.trc Sample.trc_path = Ok Sample.trc_recording
  /\ trig_event Sample.trc_recording = [0; 5; 5]
  /\ trig_time Sample.trc_recording = map inject_Z [1; 2; 3]
  /\ trigger_extract (Np.Arr1 [0; 5; 5]) (Np.Arr1 (map inject_Z [1; 2; 3]))
     = Ok ([5], map inject_Z [2]).
Proof.
  repeat split; reflexivity.
Qed.

(** C1 (amended): whenever [read_trc] returns, the returned [trig_event] is
    the label stream of the first event channel converted to integers, one
    code per label and in the same order, and the returned [trig_time] is
    that channel's time axis unchanged: no trigger extraction is applied, so
    both have as many entries as the channel has trigger records. *)
Theorem read_trc_returns_labels_unfiltered
  (w : World) (bloc : string) (r : Recording) :
  read_trc w bloc = Ok r ->
  exists seg ev,
    micromed w bloc = Ok seg
    /\ Py.getitem (events seg) 0 = Ok ev
    /\ Forall2 (fun l z => Py.int l = Some z) (labels ev) (trig_event r)
    /\ trig_time r = times ev
    /\ length (trig_event r) = length (records ev)
    /\ length (trig_time r) = length (records ev).
Proof.
  intros H. apply read_trc_ok in H.
  destruct H as (seg & sig0 & ev & nu & nb & _ & Hseg & _ & _ & _ & Hev
                 & Hlab & Htime & _).
  exists seg, ev. apply labels_astype_int_ok in Hlab.
  repeat split; try assumption.
  - apply Forall2_length in Hlab. unfold labels in Hlab.
    rewrite length_map in Hlab. symmetry. exact Hlab.
  - rewrite Htime. unfold times. apply length_map.
Qed.

Lemma read_trc_returns_labels_unfiltered_witness :
  read_trc Sample.trc Sample.trc_path = Ok Sample.trc_recording
  /\ exists seg ev,
       micromed Sample.trc Sample.trc_path = Ok seg
       /\ Py.getitem (events seg) 0 = Ok ev
       /\ Forall2 (fun l z => Py.int l = Some z) (labels ev)
            (trig_event Sample.trc_recording)
       /\ trig_time Sample.trc_recording = times ev
       /\ length (trig_event Sample.trc_recording) = length (records ev)
       /\ length (trig_time Sample.trc_recording) = length (records ev).
Proof.
  split; [reflexivity |].
  apply (read_trc_returns_labels_unfiltered Sample.trc Sample.trc_path).
  reflexivity.
Defined.

(** C8 (as stated, refuted): with nothing on disk, [read_trc] on a missing
    file and [read_pramat] on a missing directory both raise
    [AssertionError]; neither raises [FileNotFoundError] or
    [NotADirectoryError]. *)
Lemma missing_input_raises_assertion :
  isfile Sample.empty "/data/missing.TRC" = false
  /\ read_trc Sample.empty "/data/missing.TRC" = Raise AssertionError
  /\ read_trc Sample.empty "/data/missing.TRC" <> Raise FileNotFoundError
  /\ isdir Sample.empty "/data/missing" = false
  /\ read_pramat Sample.empty "/data/missing" = ([], Raise AssertionError)
  /\ snd (read_pramat Sample.empty "/data/missing")
     <> Raise NotADirectoryError.
Proof.
  repeat split; try reflexivity; simpl; discriminate.
Qed.

(** C8 (amended): [read_trc] raises [AssertionError] whenever its argument
    is not an existing file, and [read_pramat] raises [AssertionError]
    whenever its argument is not a directory; in both cases whatever the
    decoders would do (the result does not depend on them) and with nothing
    logged. *)
Theorem missing_input_fails_first :
  (forall (w : World) (bloc : string),
      isfile w bloc = false -> read_trc w bloc = Raise AssertionError)
  /\ (forall (w : World) (mat_root : string),
         isdir w mat_root = false ->
         read_pramat w mat_root = ([], Raise AssertionError)).
Proof.
  split.
  - intros w bloc H. unfold read_trc. rewrite H. reflexivity.
  - intros w root H. unfold read_pramat. rewrite H. reflexivity.
Qed.

Lemma missing_input_fails_first_witness :
  (isfile Sample.empty "/data/missing.TRC" = false
   /\ read_trc Sample.empty "/data/missing.TRC" = Raise AssertionError)
  /\ (isdir Sample.trc Sample.trc_path = false
      /\ read_pramat Sample.trc Sample.trc_path
         = ([], Raise AssertionError)).
Proof.
  split.
  - split; [reflexivity |].
    apply (proj1 missing_input_fails_first). reflexivity.
  - split; [reflexivity |].
    apply (proj2 missing_input_fails_first). reflexivity.
Defined.

(** C9 (as stated, refuted): with the one-channel name list ["ECG"] and the
    mask [false], of equal length, the names are filtered to the empty list
    but stacking the empty selection raises [ValueError]: no [raw] with zero
    rows is produced, and [read_trc] raises on such a file. *)
Lemma channel_filter_without_selection_raises :
  mask_channels ["ECG"] [false] = Ok ([], [])
  /\ stack_signals [Sample.signal "ecg" "mV" [7; 8; 9]] [] = Raise ValueError
  /\ read_trc Sample.ecg_only Sample.trc_path = Raise ValueError.
Proof.
  repeat split; reflexivity.
Qed.

Lemma stack_signals_masked (sigs : list AnalogSignal) (mask : list bool)
  (n : nat) :
  length mask = length sigs ->
  Forall (fun s => length (samples s) = n) sigs ->
  In true mask ->
  stack_signals sigs (Np.compress (seq 0 (length sigs)) mask)
  = Ok (Np.compress (map samples sigs) mask).
Proof.
  intros Hm Hn Ht. unfold stack_signals.
  rewrite collect_signals_in_range by apply compress_seq_in_range.
  cbn [Res.bind].
  replace (length sigs) with (length (map samples sigs))
    by apply length_map.
  rewrite <- compress_by_position.
  apply stack_same_length with (n := n).
  - apply compress_nonempty; [rewrite length_map; congruence | exact Ht].
  - apply compress_Forall. apply Forall_map. exact Hn.
Qed.

(** C9 (amended): for names, mask and signals of one length, the sample
    vectors of one length too, and at least one mask-true position, the
    filtering step of [read_trc] keeps exactly the names at the mask-true
    positions in their relative order, and stacks exactly the sample vectors
    at these positions: [raw] has as many rows as the mask has true
    positions.  The names ["EEG1","EEG2","ECG"] with the mask
    [true,true,false] give ["EEG1","EEG2"] and two rows. *)
Theorem channel_filter_keeps_masked :
  (mask_channels ["EEG1"; "EEG2"; "ECG"] [true; true; false]
   = Ok (["EEG1"; "EEG2"], [0; 1]%nat)
   /\ stack_signals Sample.three_channels [0; 1]%nat
      = Ok [map inject_Z [1; 2; 3]; map inject_Z [4; 5; 6]])
  /\ (forall (names : list string) (sigs : list AnalogSignal)
        (mask : list bool) (n : nat),
         length mask = length names ->
         length sigs = length names ->
         Forall (fun s => length (samples s) = n) sigs ->
         In true mask ->
         mask_channels names mask
         = Ok (Spec.at_true names mask,
               Spec.at_true (seq 0 (length names)) mask)
         /\ stack_signals sigs (Spec.at_true (seq 0 (length names)) mask)
            = Ok (Spec.at_true (map samples sigs) mask)
         /\ length (Spec.at_true names mask) = Spec.count_true mask
         /\ length (Spec.at_true (map samples sigs) mask)
            = Spec.count_true mask).
Proof.
  split; [split; reflexivity |].
  intros names sigs mask n Hm Hs Hn Ht.
  rewrite <- !compress_at_true.
  split; [apply mask_channels_eq; congruence |].
  split; [rewrite <- Hs; apply stack_signals_masked with (n := n);
          [congruence | exact Hn | exact Ht] |].
  split; apply compress_length; rewrite ?length_map; congruence.
Qed.

Lemma channel_filter_keeps_masked_witness :
  length [true; true; false] = length ["EEG1"; "EEG2"; "ECG"]
  /\ length Sample.three_channels = length ["EEG1"; "EEG2"; "ECG"]
  /\ Forall (fun s => length (samples s) = 3%nat) Sample.three_channels
  /\ In true [true; true; false]
  /\ mask_channels ["EEG1"; "EEG2"; "ECG"] [true; true; false]
     = Ok (Spec.at_true ["EEG1"; "EEG2"; "ECG"] [true; true; false],
           Spec.at_true (seq 0 (length ["EEG1"; "EEG2"; "ECG"]))
             [true; true; false])
  /\ stack_signals Sample.three_channels
       (Spec.at_true (seq 0 (length ["EEG1"; "EEG2"; "ECG"]))
          [true; true; false])
     = Ok (Spec.at_true (map samples Sample.three_channels)
             [true; true; false])
  /\ length (Spec.at_true ["EEG1"; "EEG2"; "ECG"] [true; true; false])
     = Spec.count_true [true; true; false]
  /\ length (Spec.at_true (map samples Sample.three_channels)
               [true; true; false])
     = Spec.count_true [true; true; false].
Proof.
  assert (Hn : Forall (fun s => length (samples s) = 3%nat)
                 Sample.three_channels)
    by (repeat constructor).
  assert (Ht : In true [true; true; false]) by (left; reflexivity).
  split; [reflexivity |].
  split; [reflexivity |].
  split; [exact Hn |].
  split; [exact Ht |].
  exact (proj2 channel_filter_keeps_masked
           ["EEG1"; "EEG2"; "ECG"] Sample.three_channels
           [true; true; false] 3%nat eq_refl eq_refl Hn Ht).
Defined.

(** ** The matrix reader *)

Lemma trigger_extract_lengths te ts (ev : list Z) (tm : list Q) :
  trigger_extract te ts = Ok (ev, tm) -> length ev = length tm.
Proof.
  unfold trigger_extract. destruct te as [x | te]; [discriminate |].
  intros H. res_inv H. destruct ts as [y | ts]; [discriminate |].
  res_inv H. res_inv H. res_inv H. inversion H; subst.
  apply bool_index_ok in E1, E2.
  destruct E1 as [L1 ->]. destruct E2 as [L2 ->].
  rewrite !compress_length by assumption. reflexivity.
Qed.

Lemma classify_ok (cn ct : list string) chan mask :
  classify cn ct = Ok (chan, mask) ->
  cn <> [] /\ ct <> [] /\ length cn = length ct
  /\ mask = map (fun t => String.eqb t "SEEG") ct
  /\ chan = Np.compress (map Py.upper cn) mask.
Proof.
  unfold classify. intros H.
  res_inv H. apply res_assert_ok in E.
  res_inv H. apply res_assert_ok in E0.
  res_inv H. apply res_assert_ok in E1.
  res_inv H. inversion H; subst. apply bool_index_ok in E2.
  destruct E2 as [_ ->]. apply Nat.eqb_eq in E1.
  repeat split; try assumption; try reflexivity.
  - intros ->. discriminate E.
  - intros ->. discriminate E0.
Qed.

Lemma classify_empty (cn ct : list string) :
  cn = [] \/ ct = [] -> classify cn ct = Raise AssertionError.
Proof.
  intros [-> | ->]; unfold classify; simpl; [reflexivity |].
  destruct cn; reflexivity.
Qed.

Lemma read_raw_ok (w : World) (path_raw : string) (mask : list bool)
  sf0 raw0 ev tm :
  read_raw w path_raw mask = Ok (sf0, raw0, ev, tm) ->
  exists f row,
    h5py_file w path_raw = Ok f
    /\ sf0 = f_srate f
    /\ Py.getlast (f_raw f) = Ok row
    /\ trigger_extract
         (Np.squeeze (map (fun x => Np.astype_int (Np.round x)) row))
         (Np.squeeze (f_time f)) = Ok (ev, tm)
    /\ length (f_raw f) = length mask
    /\ raw0 = Np.compress (f_raw f) mask.
Proof.
  unfold read_raw. intros H.
  res_inv H. res_inv H. res_inv H. res_inv H.
  inversion H; subst. apply bool_index_ok in E2. destruct E2 as [Hl ->].
  exists v, v0. destruct v1 as [ev tm].
  repeat split; assumption.
Qed.

(** What a successful [read_pramat] has read. *)
Lemma read_pramat_ok (w : World) (mat_root : string) (lg : log)
  (r : Recording) :
  read_pramat w mat_root = (lg, Ok r) ->
  exists lg1 lg2 path_head path_raw cn ct f row,
    isdir w mat_root = true
    /\ build_path w mat_root = (lg1, Ok (path_head, path_raw))
    /\ decode_header w path_head = (lg2, Ok (cn, ct))
    /\ lg = (lg1 ++ lg2)%list
    /\ cn <> [] /\ ct <> [] /\ length cn = length ct
    /\ seeg_chan r
       = Np.compress (map Py.upper cn)
           (map (fun t => String.eqb t "SEEG") ct)
    /\ h5py_file w path_raw = Ok f
    /\ sf r = f_srate f
    /\ Py.getlast (f_raw f) = Ok row
    /\ trigger_extract
         (Np.squeeze (map (fun x => Np.astype_int (Np.round x)) row))
         (Np.squeeze (f_time f)) = Ok (trig_event r, trig_time r)
    /\ length (f_raw f) = length ct
    /\ raw r = Np.compress (f_raw f) (map (fun t => String.eqb t "SEEG") ct).
Proof.
  unfold read_pramat. intros H.
  apply log_bind_ok in H. destruct H as (l0 & u & l0' & Ha & H & ->).
  apply log_lift_ok in Ha. destruct Ha as [Ha ->].
  apply res_assert_ok in Ha.
  apply log_bind_ok in H.
  destruct H as (l1 & [path_head path_raw] & l1' & Hp & H & ->).
  unfold read_files in H. cbn [fst snd] in H.
  apply log_bind_ok in H. destruct H as (l2 & [cn ct] & l2' & Hh & H & ->).
  cbn [fst snd] in H.
  apply log_bind_ok in H.
  destruct H as (l3 & [chan mask] & l3' & Hc & H & ->).
  apply log_lift_ok in Hc. destruct Hc as [Hc ->]. cbn [fst snd] in H.
  apply log_bind_ok in H.
  destruct H as (l4 & [[[sf0 raw0] ev] tm] & l4' & Hd & H & ->).
  apply log_lift_ok in Hd. destruct Hd as [Hd ->].
  unfold Log.ret in H. inversion H; subst; clear H.
  apply classify_ok in Hc. destruct Hc as (Hcn & Hct & Hl & -> & ->).
  apply read_raw_ok in Hd.
  destruct Hd as (f & row & Hf & -> & Hrow & Htrig & Hlen & ->).
  rewrite length_map in Hlen.
  exists l1, l2, path_head, path_raw, cn, ct, f, row.
  cbn [sf raw seeg_chan trig_event trig_time].
  rewrite !app_nil_r. cbn [app].
  repeat split; assumption.
Qed.

(** C7: whenever [read_trc] or [read_pramat] returns a recording, [raw] has
    as many rows as [seeg_chan] has names, and [trig_event] and [trig_time]
    have the same length. *)
Theorem recording_shape_invariant :
  (forall (w : World) (bloc : string) (r : Recording),
      read_trc w bloc = Ok r ->
      length (raw r) = length (seeg_chan r)
      /\ length (trig_event r) = length (trig_time r))
  /\ (forall (w : World) (mat_root : string) (lg : log) (r : Recording),
         read_pramat w mat_root = (lg, Ok r) ->
         length (raw r) = length (seeg_chan r)
         /\ length (trig_event r) = length (trig_time r)).
Proof.
  split.
  - intros w bloc r H.
    pose proof (read_trc_trigger_lengths w bloc r H) as Hl.
    apply read_trc_ok in H.
    destruct H as (seg & sig0 & ev & nu & nb & _ & _ & _ & _ & Hmask & _
                   & _ & _ & Hstack & _).
    split; [| exact Hl].
    apply mask_channels_ok in Hmask. destruct Hmask as (Hlen & -> & ->).
    unfold stack_signals in Hstack. res_inv Hstack.
    apply stack_ok in Hstack. destruct Hstack as [-> _].
    apply collect_signals_length in E. rewrite E.
    rewrite !compress_length; [reflexivity | exact Hlen |].
    rewrite length_seq. exact Hlen.
  - intros w root lg r H. apply read_pramat_ok in H.
    destruct H as (lg1 & lg2 & ph & pr & cn & ct & f & row & _ & _ & _ & _
                   & _ & _ & Hl & -> & _ & _ & _ & Htrig & Hraw & ->).
    split; [| exact (trigger_extract_lengths _ _ _ _ Htrig)].
    rewrite !compress_length; rewrite ?length_map; congruence.
Qed.

Lemma recording_shape_invariant_witness :
  (read_trc Sample.trc Sample.trc_path = Ok Sample.trc_recording
   /\ length (raw Sample.trc_recording)
      = length (seeg_chan Sample.trc_recording)
   /\ length (trig_event Sample.trc_recording)
      = length (trig_time Sample.trc_recording))
  /\ (read_pramat
        (Sample.tree ["iEEG.mat"] (Ok Sample.header) (Raise OSError)
           (Raise OSError) true) Sample.root
      = ([], Ok Sample.pramat_recording)
      /\ length (raw Sample.pramat_recording)
         = length (seeg_chan Sample.pramat_recording)
      /\ length (trig_event Sample.pramat_recording)
         = length (trig_time Sample.pramat_recording)).
Proof.
  split.
  - split; [reflexivity |].
    apply (proj1 recording_shape_invariant Sample.trc Sample.trc_path).
    reflexivity.
  - split; [reflexivity |].
    apply (proj2 recording_shape_invariant
             (Sample.tree ["iEEG.mat"] (Ok Sample.header) (Raise OSError)
                (Raise OSError) true) Sample.root []).
    reflexivity.
Defined.

Lemma seeg_mask_exact (ct : list string) :
  Forall2 (fun t b => b = true <-> t = "SEEG") ct
    (map (fun t => String.eqb t "SEEG") ct).
Proof.
  induction ct as [| t ct IH]; simpl; constructor; [| exact IH].
  apply String.eqb_eq.
Qed.

(** C6: whenever [read_pramat] returns, with [cn] and [ct] the name and type
    lists of the decoded header and [f] the raw file: the membership mask
    has one entry per type label, true exactly when the label equals
    ["SEEG"]; the returned channel names are the uppercased names at the
    mask-true positions, and the returned rows are the rows of [f['raw']] at
    the mask-true positions. *)
Theorem matrix_reader_channel_selection
  (w : World) (mat_root : string) (lg : log) (r : Recording) :
  read_pramat w mat_root = (lg, Ok r) ->
  exists lg1 lg2 path_head path_raw cn ct f mask,
    build_path w mat_root = (lg1, Ok (path_head, path_raw))
    /\ decode_header w path_head = (lg2, Ok (cn, ct))
    /\ h5py_file w path_raw = Ok f
    /\ length ct = length cn
    /\ length (f_raw f) = length cn
    /\ Forall2 (fun t b => b = true <-> t = "SEEG") ct mask
    /\ seeg_chan r = Spec.at_true (map Py.upper cn) mask
    /\ raw r = Spec.at_true (f_raw f) mask.
Proof.
  intros H. apply read_pramat_ok in H.
  destruct H as (lg1 & lg2 & ph & pr & cn & ct & f & row & _ & Hp & Hh & _
                 & _ & _ & Hl & Hchan & Hf & _ & _ & _ & Hraw & Hrows).
  exists lg1, lg2, ph, pr, cn, ct, f,
    (map (fun t => String.eqb t "SEEG") ct).
  rewrite <- !compress_at_true.
  repeat split; try assumption; try congruence.
  apply seeg_mask_exact.
Qed.

Lemma matrix_reader_channel_selection_witness :
  read_pramat
    (Sample.tree ["iEEG.mat"] (Ok Sample.header) (Raise OSError)
       (Raise OSError) true) Sample.root
  = ([], Ok Sample.pramat_recording)
  /\ exists lg1 lg2 path_head path_raw cn ct f mask,
       build_path
         (Sample.tree ["iEEG.mat"] (Ok Sample.header) (Raise OSError)
            (Raise OSError) true) Sample.root
       = (lg1, Ok (path_head, path_raw))
       /\ decode_header
            (Sample.tree ["iEEG.mat"] (Ok Sample.header) (Raise OSError)
               (Raise OSError) true) path_head
          = (lg2, Ok (cn, ct))
       /\ h5py_file
            (Sample.tree ["iEEG.mat"] (Ok Sample.header) (Raise OSError)
               (Raise OSError) true) path_raw
          = Ok f
       /\ length ct = length cn
       /\ length (f_raw f) = length cn
       /\ Forall2 (fun t b => b = true <-> t = "SEEG") ct mask
       /\ seeg_chan Sample.pramat_recording
          = Spec.at_true (map Py.upper cn) mask
       /\ raw Sample.pramat_recording = Spec.at_true (f_raw f) mask.
Proof.
  split; [reflexivity |].
  apply (matrix_reader_channel_selection
           (Sample.tree ["iEEG.mat"] (Ok Sample.header) (Raise OSError)
              (Raise OSError) true) Sample.root []).
  reflexivity.
Defined.

(** The path stage, by the listing of the raw directory. *)
Lemma build_path_eq (w : World) (mat_root file_head : string)
  (files_raw : list string) :
  listdir w (Py.join mat_root "alignedData") = Ok [file_head] ->
  listdir w (Py.join (Py.join mat_root "rawData") "amplifierData")
  = Ok files_raw ->
  build_path w mat_root
  = match files_raw with
    | [] => ([], Raise AssertionError)
    | [f] =>
        ([], Ok (Py.join (Py.join mat_root "alignedData") file_head,
                 Py.join (Py.join (Py.join mat_root "rawData")
                            "amplifierData") f))
    | _ :: _ :: _ =>
        ([msg_multiple],
         Ok (Py.join (Py.join mat_root "alignedData") file_head,
             Py.join (Py.join (Py.join mat_root "rawData") "amplifierData")
               "iEEG.mat"))
    end.
Proof.
  intros Hh Hr. unfold build_path. rewrite Hh, Hr.
  destruct files_raw as [| f [| g rest]]; reflexivity.
Qed.

Lemma read_pramat_from_paths (w : World) (mat_root : string) (lg : log)
  (path_head path_raw : string) :
  isdir w mat_root = true ->
  build_path w mat_root = (lg, Ok (path_head, path_raw)) ->
  read_pramat w mat_root
  = ((lg ++ fst (read_files w path_head path_raw))%list,
     snd (read_files w path_head path_raw)).
Proof.
  intros Hd Hp. unfold read_pramat. rewrite Hd, Hp.
  cbn [Res.assert Log.lift Log.bind fst snd app].
  destruct (read_files w path_head path_raw) as [l r]. reflexivity.
Qed.

(** C5: when the raw directory lists more than one file, the path stage does
    not raise: it logs the message "Multiple matlab files detected. Forcing
    iEEG.mat" and selects [rawData/amplifierData/iEEG.mat], and the reader
    goes on with the header file and that raw file.  With exactly one file
    listed, that file is selected and nothing is logged by the path stage;
    with no file listed, [AssertionError] is raised.  On the listing
    ["a.mat","iEEG.mat"] the read succeeds, with that one record logged. *)
Theorem raw_directory_narrowing :
  read_pramat
    (Sample.tree ["a.mat"; "iEEG.mat"] (Ok Sample.header) (Raise OSError)
       (Raise OSError) true) Sample.root
  = ([msg_multiple], Ok Sample.pramat_recording)
  /\ (forall (w : World) (mat_root file_head : string)
        (files_raw : list string),
         isdir w mat_root = true ->
         listdir w (Py.join mat_root "alignedData") = Ok [file_head] ->
         listdir w (Py.join (Py.join mat_root "rawData") "amplifierData")
         = Ok files_raw ->
         ((1 < length files_raw)%nat ->
          build_path w mat_root
          = ([msg_multiple],
             Ok (Py.join (Py.join mat_root "alignedData") file_head,
                 Py.join (Py.join (Py.join mat_root "rawData")
                            "amplifierData") "iEEG.mat"))
          /\ read_pramat w mat_root
             = (msg_multiple
                  :: fst (read_files w
                            (Py.join (Py.join mat_root "alignedData")
                               file_head)
                            (Py.join (Py.join (Py.join mat_root "rawData")
                                        "amplifierData") "iEEG.mat")),
                snd (read_files w
                       (Py.join (Py.join mat_root "alignedData") file_head)
                       (Py.join (Py.join (Py.join mat_root "rawData")
                                   "amplifierData") "iEEG.mat"))))
         /\ (forall f : string,
                files_raw = [f] ->
                build_path w mat_root
                = ([], Ok (Py.join (Py.join mat_root "alignedData")
                             file_head,
                           Py.join (Py.join (Py.join mat_root "rawData")
                                      "amplifierData") f))
                /\ read_pramat w mat_root
                   = read_files w
                       (Py.join (Py.join mat_root "alignedData") file_head)
                       (Py.join (Py.join (Py.join mat_root "rawData")
                                   "amplifierData") f))
         /\ (files_raw = [] ->
             read_pramat w mat_root = ([], Raise AssertionError))).
Proof.
  split; [reflexivity |].
  intros w mat_root file_head files_raw Hd Hh Hr.
  pose proof (build_path_eq w mat_root file_head files_raw Hh Hr) as Hp.
  split; [| split].
  - intros Hlen.
    destruct files_raw as [| f [| g rest]]; simpl in Hlen; try lia.
    split; [exact Hp |].
    rewrite (read_pramat_from_paths w mat_root _ _ _ Hd Hp). reflexivity.
  - intros f ->. split; [exact Hp |].
    rewrite (read_pramat_from_paths w mat_root _ _ _ Hd Hp).
    cbn [app]. symmetry. apply surjective_pairing.
  - intros ->. unfold read_pramat. rewrite Hd, Hp. reflexivity.
Qed.

Lemma raw_directory_narrowing_witness :
  isdir (Sample.tree ["a.mat"; "iEEG.mat"] (Ok Sample.header)
           (Raise OSError) (Raise OSError) true) Sample.root = true
  /\ (1 < length ["a.mat"; "iEEG.mat"])%nat
  /\ build_path
       (Sample.tree ["a.mat"; "iEEG.mat"] (Ok Sample.header)
          (Raise OSError) (Raise OSError) true) Sample.root
     = ([msg_multiple], Ok (Sample.file_head, Sample.file_raw)).
Proof.
  split; [reflexivity |].
  split; [simpl; lia |].
  apply (proj1 (proj2 raw_directory_narrowing
                  (Sample.tree ["a.mat"; "iEEG.mat"] (Ok Sample.header)
                     (Raise OSError) (Raise OSError) true)
                  Sample.root "header.mat" ["a.mat"; "iEEG.mat"]
                  eq_refl eq_refl eq_refl)).
  simpl; lia.
Defined.

(** C10: when the raw directory lists more than one file, the selected raw
    path is [rawData/amplifierData/iEEG.mat] whatever the listing contains
    (no membership test is made), and the path stage does not raise; when
    the header is then read and classified and opening that path raises,
    this exception is the one [read_pramat] raises.  On the listing
    ["a.mat","b.mat"], without any [iEEG.mat], the reader raises the
    [FileNotFoundError] of the open. *)
Theorem narrowing_ignores_listing :
  (~ In "iEEG.mat" ["a.mat"; "b.mat"]
   /\ read_pramat
        (Sample.tree ["a.mat"; "b.mat"] (Ok Sample.header) (Raise OSError)
           (Raise OSError) false) Sample.root
      = ([msg_multiple], Raise FileNotFoundError))
  /\ (forall (w : World) (mat_root file_head : string)
        (files_raw : list string),
         isdir w mat_root = true ->
         listdir w (Py.join mat_root "alignedData") = Ok [file_head] ->
         listdir w (Py.join (Py.join mat_root "rawData") "amplifierData")
         = Ok files_raw ->
         (1 < length files_raw)%nat ->
         build_path w mat_root
         = ([msg_multiple],
            Ok (Py.join (Py.join mat_root "alignedData") file_head,
                Py.join (Py.join (Py.join mat_root "rawData")
                           "amplifierData") "iEEG.mat"))
         /\ (forall (lg : log) (header : list string * list string)
               (chans : list string * list bool) (e : exn),
                decode_header w
                  (Py.join (Py.join mat_root "alignedData") file_head)
                = (lg, Ok header) ->
                classify (fst header) (snd header) = Ok chans ->
                h5py_file w
                  (Py.join (Py.join (Py.join mat_root "rawData")
                              "amplifierData") "iEEG.mat")
                = Raise e ->
                read_pramat w mat_root = (msg_multiple :: lg, Raise e))).
Proof.
  split.
  { split; [| reflexivity].
    simpl. intros [H | [H | H]]; try discriminate H; exact H. }
  intros w mat_root file_head files_raw Hd Hh Hr Hlen.
  pose proof (build_path_eq w mat_root file_head files_raw Hh Hr) as Hp.
  destruct files_raw as [| f [| g rest]]; simpl in Hlen; try lia.
  split; [exact Hp |].
  intros lg header chans e Hdec Hcl Hopen.
  rewrite (read_pramat_from_paths w mat_root _ _ _ Hd Hp).
  unfold read_files. rewrite Hdec. cbn [Log.bind].
  rewrite Hcl. cbn [Log.lift Log.bind].
  unfold read_raw. rewrite Hopen. cbn [Res.bind Log.bind fst snd app].
  rewrite !app_nil_r. reflexivity.
Qed.

Lemma narrowing_ignores_listing_witness :
  (1 < length ["a.mat"; "b.mat"])%nat
  /\ h5py_file
       (Sample.tree ["a.mat"; "b.mat"] (Ok Sample.header) (Raise OSError)
          (Raise OSError) false) Sample.file_raw
     = Raise FileNotFoundError
  /\ read_pramat
       (Sample.tree ["a.mat"; "b.mat"] (Ok Sample.header) (Raise OSError)
          (Raise OSError) false) Sample.root
     = ([msg_multiple], Raise FileNotFoundError).
Proof.
  assert (Hlen : (1 < length ["a.mat"; "b.mat"])%nat) by (simpl; lia).
  split; [exact Hlen |].
  split; [reflexivity |].
  apply (proj2 (proj2 narrowing_ignores_listing
                  (Sample.tree ["a.mat"; "b.mat"] (Ok Sample.header)
                     (Raise OSError) (Raise OSError) false)
                  Sample.root "header.mat" ["a.mat"; "b.mat"]
                  eq_refl eq_refl eq_refl Hlen)
           [] (["a1"; "a2"; "ecg"; "trig"], ["SEEG"; "SEEG"; "ECG"; "TRIG"])
           (["A1"; "A2"], [true; true; false; false]) FileNotFoundError);
    reflexivity.
Defined.

(** C3 (as stated, refuted): (1) when all three backends raise, the
    exception of mat73 is not logged and is the one [read_pramat] raises, not
    [AssertionError]; (2) when the HDF5 block raises after it has decoded
    the names, the failure is logged but no other backend is tried, although
    scipy and mat73 would both decode the header; (3) when HDF5 yields a
    name list and an empty type list, the chain stops there, at a backend
    that has not yielded both lists. *)
Lemma header_chain_divergences :
  read_pramat
    (Sample.tree ["iEEG.mat"] (Raise OSError) (Raise ValueError)
       (Raise TypeError) true) Sample.root
  = ([msg_hdf5; msg_scipy], Raise TypeError)
  /\ decode_header
       (Sample.tree ["iEEG.mat"] (Ok Sample.types_broken) (Ok Sample.header)
          (Ok Sample.header) true) Sample.file_head
     = ([msg_hdf5], Ok (["a1"], []))
  /\ read_pramat
       (Sample.tree ["iEEG.mat"] (Ok Sample.types_broken) (Ok Sample.header)
          (Ok Sample.header) true) Sample.root
     = ([msg_hdf5], Raise AssertionError)
  /\ decode_header
       (Sample.tree ["iEEG.mat"] (Ok Sample.names_only) (Ok Sample.header)
          (Ok Sample.header) true) Sample.file_head
     = ([], Ok (["a1"], []))
  /\ read_pramat
       (Sample.tree ["iEEG.mat"] (Ok Sample.names_only) (Ok Sample.header)
          (Ok Sample.header) true) Sample.root
     = ([], Raise AssertionError).
Proof.
  repeat split; reflexivity.
Qed.

(** The three blocks as one chain: a backend runs only while the two lists
    are empty, a guarded block logs its exception, the bare block lets it
    escape. *)
Lemma decode_header_fallback (w : World) (path_head : string) :
  decode_header w path_head
  = Spec.fallback (Spec.backends w path_head) [] [].
Proof.
  unfold decode_header, Spec.backends.
  cbn [Spec.fallback Spec.decoded Spec.guard].
  change (both_empty [] []) with true. cbv iota.
  destruct (decode_block (h5py_header w path_head) [] [])
    as [[cn1 ct1] err1].
  destruct err1 as [e1 |]; cbn [fst snd Log.error Log.bind logged];
    (destruct (both_empty cn1 ct1) eqn:B1;
     [| cbv beta iota zeta; rewrite ?B1; reflexivity]);
    (destruct (decode_block (scipy_header w path_head) cn1 ct1)
       as [[cn2 ct2] err2]);
    (destruct err2 as [e2 |]; cbn [fst snd Log.error Log.bind logged];
     (destruct (both_empty cn2 ct2) eqn:B2;
      [| cbv beta iota zeta; rewrite ?B2; reflexivity]);
     (destruct (decode_block (mat73_header w path_head) cn2 ct2)
        as [[cn3 ct3] err3]);
     destruct err3 as [e3 |]; reflexivity).
Qed.

Lemma both_empty_nonempty (cn ct : list string) :
  cn <> [] -> both_empty cn ct = false.
Proof.
  destruct cn; [congruence | reflexivity].
Qed.

(** C3 (amended): the backends are consulted in the order HDF5, scipy,
    mat73.  (1) When HDF5 yields a non-empty name list and a non-empty type
    list, these are the result and no other backend is consulted.  (2) When
    the HDF5 block leaves both lists empty, its exception, if any, is
    logged, and when scipy then yields two non-empty lists these are the
    result.  (3) When the HDF5 and the scipy block both leave the two lists
    empty, their exceptions are logged and mat73 is run: the lists it
    yields are the result, and (4) an exception it raises is not logged and
    is raised by the reader.  (5) When the checks are reached with an empty
    name list or an empty type list, [AssertionError] is raised. *)
Theorem header_fallback_chain (w : World) (path_head : string) :
  (forall (hd : Header) (cn ct : list string),
      h5py_header w path_head = Ok hd ->
      h_name hd = Ok cn ->
      h_signalType hd = Ok ct ->
      cn <> [] -> ct <> [] ->
      decode_header w path_head = ([], Ok (cn, ct)))
  /\ (forall (err1 : option exn) (hd : Header) (cn ct : list string),
         decode_block (h5py_header w path_head) [] [] = (([], []), err1) ->
         scipy_header w path_head = Ok hd ->
         h_name hd = Ok cn ->
         h_signalType hd = Ok ct ->
         cn <> [] -> ct <> [] ->
         decode_header w path_head = (logged msg_hdf5 err1, Ok (cn, ct)))
  /\ (forall (err1 err2 : option exn) (hd : Header) (cn ct : list string),
         decode_block (h5py_header w path_head) [] [] = (([], []), err1) ->
         decode_block (scipy_header w path_head) [] [] = (([], []), err2) ->
         mat73_header w path_head = Ok hd ->
         h_name hd = Ok cn ->
         h_signalType hd = Ok ct ->
         decode_header w path_head
         = ((logged msg_hdf5 err1 ++ logged msg_scipy err2)%list,
            Ok (cn, ct)))
  /\ (forall (err1 err2 : option exn) (st : list string * list string)
        (e : exn),
         decode_block (h5py_header w path_head) [] [] = (([], []), err1) ->
         decode_block (scipy_header w path_head) [] [] = (([], []), err2) ->
         decode_block (mat73_header w path_head) [] [] = (st, Some e) ->
         decode_header w path_head
         = ((logged msg_hdf5 err1 ++ logged msg_scipy err2)%list, Raise e))
  /\ (forall cn ct : list string,
         cn = [] \/ ct = [] -> classify cn ct = Raise AssertionError).
Proof.
  split; [| split; [| split; [| split]]].
  - intros hd cn ct H1 Hn Ht Hcn Hct. unfold decode_header, decode_block.
    rewrite H1, Hn, Ht. cbv beta iota zeta.
    repeat (rewrite (both_empty_nonempty cn ct Hcn); cbv beta iota zeta).
    reflexivity.
  - intros err1 hd cn ct H1 H2 Hn Ht Hcn Hct. unfold decode_header.
    rewrite H1. cbv beta iota zeta. change (both_empty [] []) with true.
    cbv iota. unfold decode_block. rewrite H2, Hn, Ht. cbv beta iota zeta.
    repeat (rewrite (both_empty_nonempty cn ct Hcn); cbv beta iota zeta).
    cbn [logged]. rewrite app_nil_r. reflexivity.
  - intros err1 err2 hd cn ct H1 H2 H3 Hn Ht. unfold decode_header.
    rewrite H1. cbv beta iota zeta. change (both_empty [] []) with true.
    cbv iota. rewrite H2. cbv beta iota zeta.
    change (both_empty [] []) with true. cbv iota.
    unfold decode_block. rewrite H3, Hn, Ht. reflexivity.
  - intros err1 err2 st e H1 H2 H3. unfold decode_header.
    rewrite H1. cbv beta iota zeta. change (both_empty [] []) with true.
    cbv iota. rewrite H2. cbv beta iota zeta.
    change (both_empty [] []) with true. cbv iota.
    rewrite H3. reflexivity.
  - exact classify_empty.
Qed.

Lemma header_fallback_chain_witness :
  decode_header
    (Sample.tree ["iEEG.mat"] (Ok Sample.header) (Ok Sample.names_only)
       (Raise TypeError) true) Sample.file_head
  = ([], Ok (["a1"; "a2"; "ecg"; "trig"], ["SEEG"; "SEEG"; "ECG"; "TRIG"]))
  /\ decode_header
       (Sample.tree ["iEEG.mat"] (Raise OSError) (Ok Sample.header)
          (Raise TypeError) true) Sample.file_head
     = ([msg_hdf5],
        Ok (["a1"; "a2"; "ecg"; "trig"], ["SEEG"; "SEEG"; "ECG"; "TRIG"]))
  /\ decode_header
       (Sample.tree ["iEEG.mat"] (Raise OSError) (Raise ValueError)
          (Ok Sample.header) true) Sample.file_head
     = ([msg_hdf5; msg_scipy],
        Ok (["a1"; "a2"; "ecg"; "trig"], ["SEEG"; "SEEG"; "ECG"; "TRIG"]))
  /\ decode_header
       (Sample.tree ["iEEG.mat"] (Raise OSError) (Raise ValueError)
          (Raise TypeError) true) Sample.file_head
     = ([msg_hdf5; msg_scipy], Raise TypeError)
  /\ classify ["a1"] [] = Raise AssertionError.
Proof.
  split; [| split; [| split; [| split]]].
  - apply (proj1 (header_fallback_chain
                    (Sample.tree ["iEEG.mat"] (Ok Sample.header)
                       (Ok Sample.names_only) (Raise TypeError) true)
                    Sample.file_head)
             Sample.header);
      try reflexivity; discriminate.
  - apply (proj1 (proj2 (header_fallback_chain
                           (Sample.tree ["iEEG.mat"] (Raise OSError)
                              (Ok Sample.header) (Raise TypeError) true)
                           Sample.file_head))
             (Some OSError) Sample.header);
      try reflexivity; discriminate.
  - apply (proj1 (proj2 (proj2 (header_fallback_chain
                                  (Sample.tree ["iEEG.mat"] (Raise OSError)
                                     (Raise ValueError) (Ok Sample.header)
                                     true)
                                  Sample.file_head)))
             (Some OSError) (Some ValueError) Sample.header);
      reflexivity.
  - apply (proj1 (proj2 (proj2 (proj2 (header_fallback_chain
                                  (Sample.tree ["iEEG.mat"] (Raise OSError)
                                     (Raise ValueError) (Raise TypeError)
                                     true)
                                  Sample.file_head))))
             (Some OSError) (Some ValueError) ([], []) TypeError);
      reflexivity.
  - apply (proj2 (proj2 (proj2 (proj2 (header_fallback_chain
                                  Sample.empty Sample.file_head))))).
    right; reflexivity.
Defined.

(** ** Further properties of the trigger extraction *)

Lemma fancy_index_ok {A} (xs : list A) (idx : list nat) (r : list A) :
  Np.fancy_index xs idx = Ok r ->
  Forall2 (fun i x => nth_error xs i = Some x) idx r.
Proof.
  revert r. induction idx as [| i idx IH]; simpl; intros r H.
  - inversion H. constructor.
  - destruct (nth_error xs i) as [x |] eqn:E; [| discriminate H].
    destruct (Np.fancy_index xs idx) as [r' | e]; [| discriminate H].
    inversion H; subst. constructor; [exact E | apply IH; reflexivity].
Qed.

Lemma compress_In {A} (x : A) (xs : list A) (mask : list bool) :
  In x (Np.compress xs mask) -> In x xs.
Proof.
  revert mask. induction xs as [| a xs IH]; intros [| b mask]; simpl;
    try tauto.
  destruct b; simpl.
  - intros [H | H]; [left; exact H | right; exact (IH _ H)].
  - intros H; right; exact (IH _ H).
Qed.

Lemma compress_sorted {A} (R : A -> A -> Prop) (xs : list A)
  (mask : list bool) :
  StronglySorted R xs -> StronglySorted R (Np.compress xs mask).
Proof.
  intros H. revert mask.
  induction H as [| a xs Hs IH Ha]; intros [| b mask]; simpl;
    try constructor.
  destruct b; [| apply IH].
  constructor; [apply IH |].
  rewrite Forall_forall in *. intros y Hy. apply Ha.
  exact (compress_In _ _ _ Hy).
Qed.

Lemma compress_self {A} (p : A -> bool) (xs : list A) :
  Np.compress xs (map p xs) = filter p xs.
Proof.
  rewrite <- (map_id xs) at 1. rewrite compress_map_filter.
  apply map_id.
Qed.

Lemma where_from_lower (i : nat) (d : list Z) :
  Forall (fun j => (i <= j)%nat) (Np.where_from i d).
Proof.
  revert i. induction d as [| x d IH]; intros i; simpl; [constructor |].
  assert (H : Forall (fun j => (i <= j)%nat) (Np.where_from (S i) d)).
  { eapply Forall_impl; [| apply (IH (S i))]. simpl. intros j Hj. lia. }
  destruct (x =? 0); [exact H | constructor; [lia | exact H]].
Qed.

Lemma where_from_sorted (i : nat) (d : list Z) :
  StronglySorted lt (Np.where_from i d).
Proof.
  revert i. induction d as [| x d IH]; intros i; simpl; [constructor |].
  destruct (x =? 0); [apply IH |].
  constructor; [apply IH |].
  eapply Forall_impl; [| apply (where_from_lower (S i))].
  simpl. intros j Hj. lia.
Qed.

Lemma map_succ_sorted (l : list nat) :
  StronglySorted lt l -> StronglySorted lt (map (fun i => (i + 1)%nat) l).
Proof.
  induction 1 as [| a l Hs IH Ha]; simpl; constructor; [exact IH |].
  rewrite Forall_forall in *. intros y Hy.
  apply in_map_iff in Hy. destruct Hy as (j & <- & Hj).
  specialize (Ha j Hj). lia.
Qed.

Lemma sorted_nth_error {A} (R : A -> A -> Prop) (xs : list A) :
  StronglySorted R xs ->
  forall (i j : nat) (a b : A),
    (i < j)%nat -> nth_error xs i = Some a -> nth_error xs j = Some b ->
    R a b.
Proof.
  induction 1 as [| x xs Hs IH Hx]; intros i j a b Hij Hi Hj.
  - destruct i; discriminate Hi.
  - destruct j as [| j]; [lia |]. simpl in Hj.
    destruct i as [| i]; simpl in Hi.
    + inversion Hi; subst. rewrite Forall_forall in Hx. apply Hx.
      exact (nth_error_In _ _ Hj).
    + apply (IH i j); [lia | exact Hi | exact Hj].
Qed.

Lemma sorted_pick {A} (R : A -> A -> Prop) (xs : list A) (idx : list nat)
  (r : list A) :
  StronglySorted R xs -> StronglySorted lt idx ->
  Forall2 (fun i x => nth_error xs i = Some x) idx r ->
  StronglySorted R r.
Proof.
  intros Hxs Hidx H. induction H as [| i x idx r Hi Hrest IH].
  - constructor.
  - inversion Hidx as [| ? ? Hidx' Hlt]; subst.
    constructor; [apply IH; exact Hidx' |].
    clear IH. induction Hrest as [| j y idx r Hj Hrest IHr];
      constructor.
    + inversion Hlt; subst.
      apply (sorted_nth_error R xs Hxs i j); assumption.
    + inversion Hlt; subst. inversion Hidx'; subst.
      apply IHr; [constructor; assumption | assumption | assumption].
Qed.

Lemma Forall2_In_right {A B} (P : A -> B -> Prop) (l : list A)
  (r : list B) (y : B) :
  Forall2 P l r -> In y r -> exists x, In x l /\ P x y.
Proof.
  induction 1 as [| a b l r Hab _ IH]; simpl; [tauto |].
  intros [<- | Hy].
  - exists a. split; [left; reflexivity | exact Hab].
  - destruct (IH Hy) as (x & Hx & Hp). exists x.
    split; [right; exact Hx | exact Hp].
Qed.

(** What a successful extraction has computed. *)
Lemma trigger_extract_ok (line : list Z) (ts : Np.squeezed Q)
  (ev : list Z) (tm : list Q) :
  trigger_extract (Np.Arr1 line) ts = Ok (ev, tm) ->
  exists idx te1 tms ts1,
    idx = map (fun i => (i + 1)%nat)
            (Np.where_ (Np.sub_arrays (tl line) (removelast line)))
    /\ ts = Np.Arr1 tms
    /\ Forall2 (fun i x => nth_error line i = Some x) idx te1
    /\ Forall2 (fun i x => nth_error tms i = Some x) idx ts1
    /\ ev = filter (fun c => negb (c =? 0)) te1
    /\ tm = Np.compress ts1 (map (fun c => negb (c =? 0)) te1).
Proof.
  unfold trigger_extract. intros H.
  apply res_bind_ok in H. destruct H as (te1 & Hte & H).
  destruct ts as [y | tms]; [discriminate H |].
  apply res_bind_ok in H. destruct H as (ts1 & Hts & H).
  apply res_bind_ok in H. destruct H as (ev' & Hev & H).
  apply res_bind_ok in H. destruct H as (tm' & Htm & H).
  inversion H; subst; clear H.
  apply bool_index_ok in Hev, Htm.
  destruct Hev as [_ ->]. destruct Htm as [_ ->].
  exists (map (fun i => (i + 1)%nat)
            (Np.where_ (Np.sub_arrays (tl line) (removelast line)))),
    te1, tms, ts1.
  repeat split.
  - apply fancy_index_ok. exact Hte.
  - apply fancy_index_ok. exact Hts.
  - apply compress_self.
Qed.

(** X1: whatever the trigger line and the time vector, a successful
    extraction returns no zero code. *)
Theorem trigger_extract_no_zero_code
  (te : Np.squeezed Z) (ts : Np.squeezed Q) (ev : list Z) (tm : list Q) :
  trigger_extract te ts = Ok (ev, tm) -> Forall (fun c => c <> 0) ev.
Proof.
  destruct te as [x | line]; [discriminate |].
  intros H. apply trigger_extract_ok in H.
  destruct H as (idx & te1 & tms & ts1 & _ & _ & _ & _ & -> & _).
  apply Forall_forall. intros c Hc. apply filter_In in Hc.
  destruct Hc as [_ Hc]. apply negb_true_iff, Z.eqb_neq in Hc. exact Hc.
Qed.

Lemma trigger_extract_no_zero_code_witness :
  trigger_extract (Np.Arr1 [3; 0; 3; 3; 0])
    (Np.Arr1 (map inject_Z [1; 2; 3; 4; 5]))
  = Ok ([3], map inject_Z [3])
  /\ Forall (fun c => c <> 0) [3].
Proof.
  split; [reflexivity |].
  apply (trigger_extract_no_zero_code (Np.Arr1 [3; 0; 3; 3; 0])
           (Np.Arr1 (map inject_Z [1; 2; 3; 4; 5])) [3]
           (map inject_Z [3])).
  reflexivity.
Defined.

(** X2: every code a successful extraction returns is the value of a sample
    after the first one: the code of the first sample alone is never
    reported. *)
Theorem trigger_extract_codes_after_first
  (line : list Z) (ts : Np.squeezed Q) (ev : list Z) (tm : list Q) :
  trigger_extract (Np.Arr1 line) ts = Ok (ev, tm) ->
  forall c, In c ev -> In c (tl line).
Proof.
  intros H c Hc. apply trigger_extract_ok in H.
  destruct H as (idx & te1 & tms & ts1 & -> & _ & Hte & _ & -> & _).
  apply filter_In in Hc. destruct Hc as [Hc _].
  destruct (Forall2_In_right _ _ _ c Hte Hc) as (i & Hi & Hnth).
  apply in_map_iff in Hi. destruct Hi as (j & <- & _).
  rewrite Nat.add_1_r in Hnth. destruct line as [| c0 l]; [discriminate |].
  simpl in Hnth. simpl. exact (nth_error_In _ _ Hnth).
Qed.

Lemma trigger_extract_codes_after_first_witness :
  trigger_extract (Np.Arr1 [7; 7; 2]) (Np.Arr1 (map inject_Z [1; 2; 3]))
  = Ok ([2], map inject_Z [3])
  /\ forall c, In c [2] -> In c (tl [7; 7; 2]).
Proof.
  split; [reflexivity |].
  apply (trigger_extract_codes_after_first [7; 7; 2]
           (Np.Arr1 (map inject_Z [1; 2; 3])) [2] (map inject_Z [3])).
  reflexivity.
Defined.

(** X3: when the time vector is strictly increasing, so are the returned
    event times. *)
Theorem trigger_extract_times_increasing
  (line : list Z) (tms : list Q) (ev : list Z) (tm : list Q) :
  trigger_extract (Np.Arr1 line) (Np.Arr1 tms) = Ok (ev, tm) ->
  StronglySorted Qlt tms -> StronglySorted Qlt tm.
Proof.
  intros H Hs. apply trigger_extract_ok in H.
  destruct H as (idx & te1 & tms' & ts1 & -> & Ht & _ & Hts & _ & ->).
  inversion Ht; subst tms'.
  apply compress_sorted.
  eapply (sorted_pick Qlt tms); [exact Hs | | exact Hts].
  apply map_succ_sorted. apply where_from_sorted.
Qed.

Lemma trigger_extract_times_increasing_witness :
  trigger_extract (Np.Arr1 [0; 4; 4; 0; 9])
    (Np.Arr1 (map inject_Z [1; 2; 3; 4; 5]))
  = Ok ([4; 9], map inject_Z [2; 5])
  /\ StronglySorted Qlt (map inject_Z [1; 2; 3; 4; 5])
  /\ StronglySorted Qlt (map inject_Z [2; 5]).
Proof.
  assert (Hs : StronglySorted Qlt (map inject_Z [1; 2; 3; 4; 5])).
  { repeat (constructor; try reflexivity). }
  split; [reflexivity |].
  split; [exact Hs |].
  apply (trigger_extract_times_increasing [0; 4; 4; 0; 9]
           (map inject_Z [1; 2; 3; 4; 5]) [4; 9] (map inject_Z [2; 5]));
    [reflexivity | exact Hs].
Defined.

(** ** Further properties of the matrix reader *)

Lemma round_inject_Z (z : Z) : Np.round (inject_Z z) = z.
Proof.
  unfold Np.round. rewrite Qfloor_Z.
  assert (H : (inject_Z z - inject_Z z < 1 # 2)%Q).
  { unfold Qlt, Qminus, Qplus, Qopp, inject_Z. simpl. lia. }
  rewrite (proj1 (Qlt_alt _ _) H). reflexivity.
Qed.

Lemma astype_int_in_range (z : Z) : Np.is_int64 z -> Np.astype_int z = z.
Proof.
  unfold Np.is_int64, Np.astype_int. intros [Hlo Hhi].
  apply Z.leb_le in Hlo, Hhi. rewrite Hlo, Hhi. reflexivity.
Qed.

Lemma astype_int_is_int64 (z : Z) : Np.is_int64 (Np.astype_int z).
Proof.
  unfold Np.astype_int, Np.is_int64.
  destruct (Np.int64_min <=? z) eqn:Hlo;
    destruct (z <=? Np.int64_max) eqn:Hhi; simpl;
    try (unfold Np.int64_min, Np.int64_max; lia).
  apply Z.leb_le in Hlo, Hhi. lia.
Qed.

(** X4: on a trigger row that stores integer codes of the 64-bit range, the
    rounding and the integer conversion of line 243 change nothing. *)
Theorem rounding_keeps_integer_codes (codes : list Z) :
  Forall Np.is_int64 codes ->
  map (fun x => Np.astype_int (Np.round x)) (map inject_Z codes) = codes.
Proof.
  induction 1 as [| c codes Hc _ IH]; simpl; [reflexivity |].
  rewrite round_inject_Z, (astype_int_in_range c Hc), IH. reflexivity.
Qed.

Lemma rounding_keeps_integer_codes_witness :
  Forall Np.is_int64 [0; 5; -3]
  /\ map (fun x => Np.astype_int (Np.round x)) (map inject_Z [0; 5; -3])
     = [0; 5; -3].
Proof.
  assert (H : Forall Np.is_int64 [0; 5; -3]) by int64_range.
  split; [exact H | exact (rounding_keeps_integer_codes [0; 5; -3] H)].
Defined.

Lemma squeeze_Arr1 {A} (l : list A) :
  length l <> 1%nat -> Np.squeeze l = Np.Arr1 l.
Proof.
  destruct l as [| x [| y l]]; simpl; intros H;
    [reflexivity | congruence | reflexivity].
Qed.

Lemma trigger_extract_squeezed (row : list Z) (tms : list Q) ev tm :
  trigger_extract (Np.squeeze row) (Np.squeeze tms) = Ok (ev, tm) ->
  length row <> 1%nat /\ length tms <> 1%nat.
Proof.
  intros H. split.
  - destruct row as [| x [| y l]]; simpl;
      [discriminate | simpl in H; discriminate H | discriminate].
  - destruct tms as [| x [| y l]]; simpl;
      [discriminate | | discriminate].
    unfold trigger_extract in H. simpl Np.squeeze in H.
    destruct (Np.squeeze row) as [c | line]; [discriminate H |].
    apply res_bind_ok in H. destruct H as (te1 & _ & H). discriminate H.
Qed.

(** X5: whenever [read_pramat] returns, neither the trigger row nor the
    time vector of the raw file has exactly one entry: a one-sample
    recording is never read. *)
Theorem read_pramat_needs_several_samples
  (w : World) (mat_root : string) (lg : log) (r : Recording) :
  read_pramat w mat_root = (lg, Ok r) ->
  exists lg1 path_head path_raw f row,
    build_path w mat_root = (lg1, Ok (path_head, path_raw))
    /\ h5py_file w path_raw = Ok f
    /\ Py.getlast (f_raw f) = Ok row
    /\ length row <> 1%nat
    /\ length (f_time f) <> 1%nat.
Proof.
  intros H. apply read_pramat_ok in H.
  destruct H as (lg1 & lg2 & ph & pr & cn & ct & f & row & _ & Hp & _ & _
                 & _ & _ & _ & _ & Hf & _ & Hrow & Htrig & _).
  exists lg1, ph, pr, f, row.
  apply trigger_extract_squeezed in Htrig. rewrite length_map in Htrig.
  destruct Htrig as [H1 H2]. repeat split; assumption.
Qed.

Lemma read_pramat_needs_several_samples_witness :
  read_pramat
    (Sample.tree ["iEEG.mat"] (Ok Sample.header) (Raise OSError)
       (Raise OSError) true) Sample.root
  = ([], Ok Sample.pramat_recording)
  /\ exists lg1 path_head path_raw f row,
       build_path
         (Sample.tree ["iEEG.mat"] (Ok Sample.header) (Raise OSError)
            (Raise OSError) true) Sample.root
       = (lg1, Ok (path_head, path_raw))
       /\ h5py_file
            (Sample.tree ["iEEG.mat"] (Ok Sample.header) (Raise OSError)
               (Raise OSError) true) path_raw
          = Ok f
       /\ Py.getlast (f_raw f) = Ok row
       /\ length row <> 1%nat
       /\ length (f_time f) <> 1%nat.
Proof.
  split; [reflexivity |].
  apply (read_pramat_needs_several_samples
           (Sample.tree ["iEEG.mat"] (Ok Sample.header) (Raise OSError)
              (Raise OSError) true) Sample.root [] Sample.pramat_recording).
  reflexivity.
Defined.

(** X6: whenever [read_pramat] returns on a raw file whose time vector has
    as many entries as the trigger row, the returned events and times are
    the leading edges of the rounded trigger row: the codes and timestamps
    at the positions [i >= 1] where the rounded value differs from the
    previous one and is not zero. *)
Theorem read_pramat_events_are_leading_edges
  (w : World) (mat_root : string) (lg : log) (r : Recording) :
  read_pramat w mat_root = (lg, Ok r) ->
  exists lg1 path_head path_raw f row,
    build_path w mat_root = (lg1, Ok (path_head, path_raw))
    /\ h5py_file w path_raw = Ok f
    /\ Py.getlast (f_raw f) = Ok row
    /\ (length (f_time f) = length row ->
        (trig_event r, trig_time r)
        = Spec.extract_events
            (map (fun x => Np.astype_int (Np.round x)) row) (f_time f)).
Proof.
  intros H. apply read_pramat_ok in H.
  destruct H as (lg1 & lg2 & ph & pr & cn & ct & f & row & _ & Hp & _ & _
                 & _ & _ & _ & _ & Hf & _ & Hrow & Htrig & _).
  exists lg1, ph, pr, f, row.
  repeat split; try assumption.
  intros Hlen.
  destruct (trigger_extract_squeezed _ _ _ _ Htrig) as [H1 H2].
  rewrite (squeeze_Arr1 _ H1), (squeeze_Arr1 _ H2) in Htrig.
  rewrite trigger_extract_spec in Htrig.
  - inversion Htrig. reflexivity.
  - apply Forall_forall. intros c Hc. apply in_map_iff in Hc.
    destruct Hc as (x & <- & _). apply astype_int_is_int64.
  - rewrite length_map. exact Hlen.
Qed.

Lemma read_pramat_events_are_leading_edges_witness :
  read_pramat
    (Sample.tree ["iEEG.mat"] (Ok Sample.header) (Raise OSError)
       (Raise OSError) true) Sample.root
  = ([], Ok Sample.pramat_recording)
  /\ exists lg1 path_head path_raw f row,
       build_path
         (Sample.tree ["iEEG.mat"] (Ok Sample.header) (Raise OSError)
            (Raise OSError) true) Sample.root
       = (lg1, Ok (path_head, path_raw))
       /\ h5py_file
            (Sample.tree ["iEEG.mat"] (Ok Sample.header) (Raise OSError)
               (Raise OSError) true) path_raw
          = Ok f
       /\ Py.getlast (f_raw f) = Ok row
       /\ (length (f_time f) = length row ->
           (trig_event Sample.pramat_recording,
            trig_time Sample.pramat_recording)
           = Spec.extract_events
               (map (fun x => Np.astype_int (Np.round x)) row) (f_time f)).
Proof.
  split; [reflexivity |].
  apply (read_pramat_events_are_leading_edges
           (Sample.tree ["iEEG.mat"] (Ok Sample.header) (Raise OSError)
              (Raise OSError) true) Sample.root [] Sample.pramat_recording).
  reflexivity.
Defined.

(** X7: the header directory gets no narrowing: when [alignedData] lists no
    entry or more than one, [read_pramat] raises [AssertionError] with
    nothing logged, whatever the raw directory holds. *)
Theorem header_directory_needs_one_entry
  (w : World) (mat_root : string) (files_head : list string) :
  isdir w mat_root = true ->
  listdir w (Py.join mat_root "alignedData") = Ok files_head ->
  length files_head <> 1%nat ->
  read_pramat w mat_root = ([], Raise AssertionError).
Proof.
  intros Hd Hh Hlen. unfold read_pramat, build_path. rewrite Hd, Hh.
  destruct files_head as [| a [| b rest]]; simpl in Hlen;
    [reflexivity | congruence | reflexivity].
Qed.

Lemma header_directory_needs_one_entry_witness :
  isdir Cases.two_headers Sample.root = true
  /\ listdir Cases.two_headers (Py.join Sample.root "alignedData")
     = Ok ["header.mat"; "old.mat"]
  /\ length ["header.mat"; "old.mat"] <> 1%nat
  /\ read_pramat Cases.two_headers Sample.root = ([], Raise AssertionError).
Proof.
  assert (Hlen : length ["header.mat"; "old.mat"] <> 1%nat)
    by (simpl; discriminate).
  split; [reflexivity |].
  split; [reflexivity |].
  split; [exact Hlen |].
  exact (header_directory_needs_one_entry Cases.two_headers Sample.root
           ["header.mat"; "old.mat"] eq_refl eq_refl Hlen).
Defined.

Lemma log_bind_fst {A B} (m : Logged A) (k : A -> Logged B) :
  fst (Log.bind m k)
  = (fst m ++ match snd m with
              | Ok a => fst (k a)
              | Raise _ => []
              end)%list.
Proof.
  destruct m as [l [a | e]]; simpl.
  - destruct (k a) as [l' r]. reflexivity.
  - rewrite app_nil_r. reflexivity.
Qed.

Lemma build_path_log (w : World) (mat_root : string) :
  fst (build_path w mat_root) = []
  \/ fst (build_path w mat_root) = [msg_multiple].
Proof.
  unfold build_path.
  destruct (listdir w (Py.join mat_root "alignedData"))
    as [[| a [| b rest]] | e]; simpl; try (left; reflexivity).
  destruct (listdir w (Py.join (Py.join mat_root "rawData")
                         "amplifierData"))
    as [[| x [| y r]] | e]; simpl;
    try (left; reflexivity); right; reflexivity.
Qed.

Lemma decode_header_log (w : World) (path_head : string) :
  exists e1 e2 : option exn,
    fst (decode_header w path_head)
    = (logged msg_hdf5 e1 ++ logged msg_scipy e2)%list.
Proof.
  unfold decode_header.
  destruct (decode_block (h5py_header w path_head) [] [])
    as [[cn1 ct1] err1].
  destruct (both_empty cn1 ct1) eqn:B1.
  - destruct (decode_block (scipy_header w path_head) cn1 ct1)
      as [[cn2 ct2] err2].
    exists err1, err2.
    destruct (both_empty cn2 ct2);
      [destruct (decode_block (mat73_header w path_head) cn2 ct2)
         as [st [e |]] |]; reflexivity.
  - exists err1, None. rewrite B1. reflexivity.
Qed.

Lemma read_files_log (w : World) (path_head path_raw : string) :
  fst (read_files w path_head path_raw) = fst (decode_header w path_head).
Proof.
  unfold read_files.
  destruct (decode_header w path_head) as [l [[cn ct] | e]];
    [| reflexivity].
  cbn [Log.bind fst snd].
  destruct (classify cn ct) as [[chan mask] | e]; cbn [Log.lift Log.bind];
    [| rewrite app_nil_r; reflexivity].
  cbn [fst snd].
  destruct (read_raw w path_raw mask) as [[[[sf0 raw0] ev] tm] | e];
    cbn [Log.ret fst]; rewrite !app_nil_r; reflexivity.
Qed.

(** X8: whatever the inputs, [read_pramat] logs at most three records, each
    at most once and in this order: the forcing of [iEEG.mat], the failure
    of HDF5, the failure of scipy. *)
Theorem read_pramat_log_shape (w : World) (mat_root : string) :
  exists b1 b2 b3 : bool,
    fst (read_pramat w mat_root)
    = ((if b1 then [msg_multiple] else [])
       ++ (if b2 then [msg_hdf5] else [])
       ++ (if b3 then [msg_scipy] else []))%list.
Proof.
  unfold read_pramat.
  destruct (isdir w mat_root); cbn [Res.assert Log.lift Log.bind];
    [| exists false, false, false; reflexivity].
  pose proof (build_path_log w mat_root) as Hb.
  destruct (build_path w mat_root) as [l [paths | e]]; cbn [fst] in Hb.
  - pose proof (read_files_log w (fst paths) (snd paths)) as Hf.
    destruct (decode_header_log w (fst paths)) as (e1 & e2 & He).
    rewrite He in Hf. cbn [Log.bind].
    destruct (read_files w (fst paths) (snd paths)) as [l' r'].
    cbn [fst app] in *. subst l'.
    exists (match l with [] => false | _ => true end),
      (match e1 with Some _ => true | None => false end),
      (match e2 with Some _ => true | None => false end).
    destruct Hb as [-> | ->]; destruct e1, e2; reflexivity.
  - cbn [fst app].
    exists (match l with [] => false | _ => true end), false, false.
    destruct Hb as [-> | ->]; reflexivity.
Qed.

(** ** Further properties of the vendor binary reader *)

(** X9: a recording returned by [read_trc] has at least one channel: its
    name list is not empty and [raw] has an entry for it ([np.stack] rejects
    an empty selection). *)
Theorem read_trc_nonempty
  (w : World) (bloc : string) (r : Recording) :
  read_trc w bloc = Ok r ->
  seeg_chan r <> [] /\ raw r <> [].
Proof.
  intros H. apply read_trc_ok in H.
  destruct H as (seg & sig0 & ev & nu & nb & _ & _ & _ & _ & Hmask & _
                 & _ & _ & Hstack & _).
  apply mask_channels_ok in Hmask. destruct Hmask as (Hlen & Hchan & ->).
  unfold stack_signals in Hstack.
  apply res_bind_ok in Hstack. destruct Hstack as (rows & Hrows & Hstack).
  apply stack_ok in Hstack. destruct Hstack as [Hraw Hne].
  rewrite <- Hraw in Hne, Hrows.
  apply collect_signals_length in Hrows.
  split; [| exact Hne].
  intros Hempty. apply Hne. apply length_zero_iff_nil.
  rewrite Hrows, compress_length by (rewrite length_seq; exact Hlen).
  rewrite <- (compress_length (fst nu)) by exact Hlen.
  rewrite <- Hchan, Hempty. reflexivity.
Qed.

Lemma read_trc_nonempty_witness :
  read_trc Sample.trc Sample.trc_path = Ok Sample.trc_recording
  /\ seeg_chan Sample.trc_recording <> []
  /\ raw Sample.trc_recording <> [].
Proof.
  split; [reflexivity |].
  apply (read_trc_nonempty Sample.trc Sample.trc_path).
  reflexivity.
Defined.

(** X11: when the classifier's mask has not one entry per analog signal of
    the file, [read_trc] raises [IndexError], before the events and the
    samples are read. *)
Theorem read_trc_mask_length_mismatch
  (w : World) (bloc : string) (seg : Segment) :
  isfile w bloc = true ->
  micromed w bloc = Ok seg ->
  length (detect_seeg_contacts w
            (map (fun sig => Py.upper (Py.strip (Py.remove_spaces (name sig))))
                 (analogsignals seg))
            (map units (analogsignals seg)) "uV")
  <> length (analogsignals seg) ->
  read_trc w bloc = Raise IndexError.
Proof.
  intros Hf Hseg Hlen. unfold read_trc, read_contacts_trc.
  rewrite Hf, Hseg. cbn [Res.assert Res.bind].
  destruct (analogsignals seg) as [| s sigs] eqn:Hs; [reflexivity |].
  cbn [Py.getitem nth_error Res.bind fst snd].
  unfold mask_channels, Np.bool_index.
  rewrite length_map.
  destruct (Nat.eqb_spec (length (s :: sigs))
              (length (detect_seeg_contacts w
                 (map (fun sig =>
                         Py.upper (Py.strip (Py.remove_spaces (name sig))))
                      (s :: sigs))
                 (map units (s :: sigs)) "uV"))) as [E | E].
  - exfalso. apply Hlen. symmetry. exact E.
  - reflexivity.
Qed.

Lemma read_trc_mask_length_mismatch_witness :
  isfile Cases.short_mask Sample.trc_path = true
  /\ micromed Cases.short_mask Sample.trc_path
     = Ok (Sample.segment Sample.three_channels)
  /\ length (detect_seeg_contacts Cases.short_mask
               (map (fun sig =>
                       Py.upper (Py.strip (Py.remove_spaces (name sig))))
                    Sample.three_channels)
               (map units Sample.three_channels) "uV")
     <> length Sample.three_channels
  /\ read_trc Cases.short_mask Sample.trc_path = Raise IndexError.
Proof.
  assert (Hlen : length (detect_seeg_contacts Cases.short_mask
                           (map (fun sig =>
                                   Py.upper
                                     (Py.strip (Py.remove_spaces (name sig))))
                                Sample.three_channels)
                           (map units Sample.three_channels) "uV")
                 <> length Sample.three_channels)
    by (simpl; discriminate).
  split; [reflexivity |].
  split; [reflexivity |].
  split; [exact Hlen |].
  exact (read_trc_mask_length_mismatch Cases.short_mask Sample.trc_path
           (Sample.segment Sample.three_channels) eq_refl eq_refl Hlen).
Defined.

(** ** [read_contacts_trc]: the normalised names *)

Lemma upper_ascii_not_space (c : ascii) :
  c <> " "%char -> Py.upper_ascii c <> " "%char.
Proof.
  destruct c as [[] [] [] [] [] [] [] []]; intros H;
    try (exfalso; apply H; reflexivity); vm_compute; discriminate.
Qed.

Lemma upper_ascii_idempotent (c : ascii) :
  Py.upper_ascii (Py.upper_ascii c) = Py.upper_ascii c.
Proof.
  destruct c as [[] [] [] [] [] [] [] []]; reflexivity.
Qed.

Lemma upper_chars (s : string) :
  list_ascii_of_string (Py.upper s)
  = map Py.upper_ascii (list_ascii_of_string s).
Proof.
  induction s as [| c s IH]; simpl; [reflexivity | rewrite IH; reflexivity].
Qed.

Lemma lstrip_chars (s : string) (c : ascii) :
  In c (list_ascii_of_string (Py.lstrip s)) ->
  In c (list_ascii_of_string s).
Proof.
  induction s as [| a s IH]; simpl; [tauto |].
  destruct (Py.is_space a); simpl; [intros H; right; exact (IH H) | tauto].
Qed.

Lemma rstrip_chars (s : string) (c : ascii) :
  In c (list_ascii_of_string (Py.rstrip s)) ->
  In c (list_ascii_of_string s).
Proof.
  induction s as [| a s IH]; simpl; [tauto |].
  destruct (Py.rstrip s) as [| b r] eqn:E.
  - destruct (Py.is_space a); simpl; [tauto |].
    intros [H | H]; [left; exact H | destruct H].
  - simpl. intros [H | H]; [left; exact H | right; apply IH; exact H].
Qed.

Lemma remove_spaces_chars (s : string) (c : ascii) :
  In c (list_ascii_of_string (Py.remove_spaces s)) -> c <> " "%char.
Proof.
  induction s as [| a s IH]; simpl; [tauto |].
  destruct (Ascii.eqb_spec a " "%char) as [-> | Hne]; [exact IH |].
  simpl. intros [<- | H]; [exact Hne | exact (IH H)].
Qed.

(** X12: [read_contacts_trc] returns one name and one unit per analog
    signal, and no returned name holds a blank or a lower-case ASCII letter
    (upper-casing a character of a name leaves it unchanged). *)
Theorem read_contacts_trc_normalised
  (w : World) (path : string) (all_chan units : list string) :
  read_contacts_trc w path = Ok (all_chan, units) ->
  length all_chan = length units
  /\ (forall seg, micromed w path = Ok seg ->
                  length all_chan = length (analogsignals seg))
  /\ (forall (n : string) (c : ascii),
         In n all_chan -> In c (list_ascii_of_string n) ->
         c <> " "%char /\ Py.upper_ascii c = c).
Proof.
  unfold read_contacts_trc. intros H.
  apply res_bind_ok in H. destruct H as (seg & Hseg & H).
  inversion H; subst; clear H.
  split; [rewrite !length_map; reflexivity |].
  split.
  - intros seg' Hseg'. rewrite Hseg in Hseg'. inversion Hseg'; subst.
    apply length_map.
  - intros n c Hn Hc. apply in_map_iff in Hn.
    destruct Hn as (sig & <- & _).
    rewrite upper_chars in Hc. apply in_map_iff in Hc.
    destruct Hc as (c0 & <- & Hc0).
    apply rstrip_chars, lstrip_chars, remove_spaces_chars in Hc0.
    split; [apply upper_ascii_not_space; exact Hc0 |
            apply upper_ascii_idempotent].
Qed.

Lemma read_contacts_trc_normalised_witness :
  read_contacts_trc Sample.trc Sample.trc_path
  = Ok (["A1"; "A2"; "ECG"], ["uV"; "uV"; "mV"])
  /\ length ["A1"; "A2"; "ECG"] = length ["uV"; "uV"; "mV"]
  /\ (forall seg, micromed Sample.trc Sample.trc_path = Ok seg ->
                  length ["A1"; "A2"; "ECG"] = length (analogsignals seg))
  /\ (forall (n : string) (c : ascii),
         In n ["A1"; "A2"; "ECG"] -> In c (list_ascii_of_string n) ->
         c <> " "%char /\ Py.upper_ascii c = c).
Proof.
  split; [reflexivity |].
  apply (read_contacts_trc_normalised Sample.trc Sample.trc_path).
  reflexivity.
Defined.

(** ** [read_trm] *)

Ltac rows_of_three H :=
  repeat match goal with
    | Hf : Forall _ (_ :: _) |- _ =>
        let Hh := fresh "Hrow" in
        let Ht := fresh "Hrest" in
        inversion Hf as [| ? ? Hh Ht]; subst; clear Hf
    | Hf : Forall _ [] |- _ => clear Hf
    end.

(** X13: with [as_transform] and without [inverse], [read_trm] returns
    exactly on a file that holds a table of four rows and three columns; the
    result is then the 4 x 4 table whose first three rows are the rows 2 to
    4 of the file, each extended by the matching entry of the first row,
    and whose last row is 0 0 0 1. *)
Theorem read_trm_transform_layout
  (genfromtxt : string -> result Trm.ndarray)
  (inv : Trm.ndarray -> result Trm.ndarray) (path : string)
  (out : Trm.ndarray) :
  (forall a, genfromtxt path = Ok a -> Trm.well_formed a) ->
  (Trm.read_trm genfromtxt inv path true false = Ok out <->
   exists t0 t1 t2 a b c d e f g h i : Q,
     genfromtxt path
     = Ok (Trm.A2 3 [[t0; t1; t2]; [a; b; c]; [d; e; f]; [g; h; i]])
     /\ out = Trm.A2 4 [[a; b; c; t0]; [d; e; f; t1]; [g; h; i; t2];
                        [0; 0; 0; 1]%Q]).
Proof.
  intros Hwf. split.
  - unfold Trm.read_trm. intros H.
    apply res_bind_ok in H. destruct H as (tr & Hg & H).
    apply res_bind_ok in H. destruct H as (m & Hm & H).
    inversion H; subst m; clear H.
    specialize (Hwf tr Hg).
    destruct tr as [x | l | n rows]; try discriminate Hm.
    unfold Trm.as_transform_array in Hm.
    apply res_bind_ok in Hm. destruct Hm as (first & Hfirst & Hm).
    apply res_bind_ok in Hm. destruct Hm as (m & Hc & Hm).
    destruct rows as [| r0 rest]; [discriminate Hfirst |].
    inversion Hfirst; subst first; clear Hfirst.
    unfold Trm.c_ in Hc. cbn [tl] in Hc.
    destruct (Nat.eqb_spec (length rest) (length r0)) as [El |];
      [| discriminate Hc].
    inversion Hc; subst m; clear Hc.
    unfold Trm.vstack in Hm.
    destruct (Nat.eqb_spec (n + 1) (length [0; 0; 0; 1]%Q)) as [En |];
      [| discriminate Hm].
    inversion Hm; subst out; clear Hm.
    simpl in En. assert (n = 3%nat) by lia. subst n.
    simpl in Hwf. inversion Hwf as [| ? ? H0 Hrest]; subst.
    rewrite H0 in El.
    destruct r0 as [| t0 [| t1 [| t2 [| ? ?]]]]; try discriminate H0.
    destruct rest as [| r1 [| r2 [| r3 [| ? ?]]]]; try discriminate El.
    rows_of_three Hrest.
    destruct r1 as [| a [| b [| c [| ? ?]]]]; try discriminate.
    destruct r2 as [| d [| e [| f [| ? ?]]]]; try discriminate.
    destruct r3 as [| g [| h [| i [| ? ?]]]]; try discriminate.
    exists t0, t1, t2, a, b, c, d, e, f, g, h, i.
    split; [exact Hg | reflexivity].
  - intros (t0 & t1 & t2 & a & b & c & d & e & f & g & h & i & Hg & ->).
    unfold Trm.read_trm. rewrite Hg. reflexivity.
Qed.

Lemma read_trm_transform_layout_witness :
  (forall a, Cases.genfromtxt "/data/t1.trm" = Ok a -> Trm.well_formed a)
  /\ Trm.read_trm Cases.genfromtxt Cases.no_inv "/data/t1.trm" true false
     = Ok Cases.trm_transform.
Proof.
  assert (Hwf : forall a, Cases.genfromtxt "/data/t1.trm" = Ok a ->
                          Trm.well_formed a).
  { intros a H. inversion H; subst. simpl. repeat constructor. }
  split; [exact Hwf |].
  apply (proj2 (read_trm_transform_layout Cases.genfromtxt Cases.no_inv
                  "/data/t1.trm" Cases.trm_transform Hwf)).
  exists 10%Q, 20%Q, 30%Q, 1%Q, 0%Q, 0%Q, 0%Q, 0%Q, (-1)%Q, 0%Q, 1%Q, 0%Q.
  split; reflexivity.
Defined.

(** ** [read_3dslicer_fiducial] *)

Lemma column_present (df : Fcsv.DataFrame) (label : string) :
  In label (map fst df) ->
  exists c, Fcsv.column df label = Ok c /\ fst c = label /\ In c df.
Proof.
  intros H. unfold Fcsv.column.
  destruct (find (fun c => String.eqb (fst c) label) df) as [c |] eqn:E.
  - apply find_some in E. destruct E as [Hin Heq].
    apply String.eqb_eq in Heq. exists c. repeat split; assumption.
  - exfalso. apply in_map_iff in H. destruct H as (c & Hc & Hin).
    pose proof (find_none _ _ E c Hin) as Hn. simpl in Hn.
    rewrite Hc, String.eqb_refl in Hn. discriminate Hn.
Qed.

Lemma column_ok (df : Fcsv.DataFrame) (label : string) c :
  Fcsv.column df label = Ok c -> fst c = label /\ In c df.
Proof.
  unfold Fcsv.column.
  destruct (find (fun c => String.eqb (fst c) label) df) as [c' |] eqn:E;
    [| discriminate].
  intros H; inversion H; subst. apply find_some in E.
  destruct E as [Hin Heq]. apply String.eqb_eq in Heq. split; assumption.
Qed.

Lemma column_error (df : Fcsv.DataFrame) (label : string) (e : exn) :
  Fcsv.column df label = Raise e -> e = KeyError.
Proof.
  unfold Fcsv.column.
  destruct (find (fun c => String.eqb (fst c) label) df); [discriminate |].
  intros H; inversion H; reflexivity.
Qed.

Lemma select_ok (df : Fcsv.DataFrame) (names : list string) out :
  Fcsv.select df names = Ok out ->
  map fst out = names /\ (forall c, In c out -> In c df).
Proof.
  revert out. induction names as [| n names IH]; simpl; intros out H.
  - inversion H. split; [reflexivity | intros c []].
  - apply res_bind_ok in H. destruct H as (c & Hc & H).
    apply res_bind_ok in H. destruct H as (r & Hr & H).
    inversion H; subst; clear H.
    apply column_ok in Hc. destruct Hc as [Hfst Hin].
    destruct (IH r Hr) as [Hnames Hsub].
    split; [simpl; rewrite Hfst, Hnames; reflexivity |].
    intros c' [<- | Hc']; [exact Hin | exact (Hsub c' Hc')].
Qed.

Lemma select_error (df : Fcsv.DataFrame) (names : list string) (e : exn) :
  Fcsv.select df names = Raise e -> e = KeyError.
Proof.
  induction names as [| n names IH]; simpl; [discriminate |].
  destruct (Fcsv.column df n) as [c | e'] eqn:Ec; simpl.
  - destruct (Fcsv.select df names) as [r | e'']; simpl; [discriminate |].
    intros H; inversion H; subst. apply IH. reflexivity.
  - intros H; inversion H; subst. exact (column_error _ _ _ Ec).
Qed.

Lemma select_present (df : Fcsv.DataFrame) (names : list string) :
  (forall n, In n names -> In n (map fst df)) ->
  exists out, Fcsv.select df names = Ok out.
Proof.
  induction names as [| n names IH]; simpl; intros H.
  - exists []. reflexivity.
  - destruct (column_present df n (H n (or_introl eq_refl)))
      as (c & Hc & _).
    destruct (IH (fun m Hm => H m (or_intror Hm))) as (r & Hr).
    rewrite Hc, Hr. exists (c :: r). reflexivity.
Qed.

(** X14: on a table read from the file, [read_3dslicer_fiducial] returns
    exactly when the table has the four columns label, x, y and z; the
    result then holds these four columns of the table, in this order,
    whatever their order and whatever other columns the file has.  When one
    of the four is missing it raises [KeyError]. *)
Theorem read_3dslicer_fiducial_columns
  (read_csv : string -> list nat -> result Fcsv.DataFrame) (path : string)
  (df : Fcsv.DataFrame) :
  read_csv path [0; 1]%nat = Ok df ->
  ((forall n, In n ["label"; "x"; "y"; "z"] -> In n (map fst df)) ->
   exists out,
     Fcsv.read_3dslicer_fiducial read_csv path = Ok out
     /\ map fst out = ["label"; "x"; "y"; "z"]
     /\ (forall c, In c out -> In c df))
  /\ ((exists n, In n ["label"; "x"; "y"; "z"] /\ ~ In n (map fst df)) ->
      Fcsv.read_3dslicer_fiducial read_csv path = Raise KeyError).
Proof.
  intros Hdf. unfold Fcsv.read_3dslicer_fiducial. rewrite Hdf.
  cbn [Res.bind]. split.
  - intros Hall. destruct (select_present df _ Hall) as (out & Hout).
    exists out. split; [exact Hout | exact (select_ok _ _ _ Hout)].
  - intros (n & Hn & Hmiss).
    destruct (Fcsv.select df ["label"; "x"; "y"; "z"]) as [out | e] eqn:E.
    + exfalso. apply Hmiss. apply select_ok in E. destruct E as [Hnames Hsub].
      rewrite <- Hnames in Hn. apply in_map_iff in Hn.
      destruct Hn as (c & <- & Hc). apply in_map. exact (Hsub c Hc).
    + rewrite (select_error _ _ _ E). reflexivity.
Qed.

Lemma read_3dslicer_fiducial_columns_witness :
  Cases.read_csv "/data/f.fcsv" [0; 1]%nat = Ok Cases.fiducials
  /\ (forall n, In n ["label"; "x"; "y"; "z"] ->
                In n (map fst Cases.fiducials))
  /\ exists out,
       Fcsv.read_3dslicer_fiducial Cases.read_csv "/data/f.fcsv" = Ok out
       /\ map fst out = ["label"; "x"; "y"; "z"]
       /\ (forall c, In c out -> In c Cases.fiducials).
Proof.
  assert (Hall : forall n, In n ["label"; "x"; "y"; "z"] ->
                           In n (map fst Cases.fiducials)).
  { intros n [<- | [<- | [<- | [<- | []]]]]; simpl; tauto. }
  split; [reflexivity |].
  split; [exact Hall |].
  exact (proj1 (read_3dslicer_fiducial_columns Cases.read_csv
                  "/data/f.fcsv" Cases.fiducials eq_refl) Hall).
Defined.

(** ** The integer literals of the labels *)

(** [Py.int] on the forms that tell [int] from a plain digit reader: blanks
    and a sign around the digits, underscores between digits only, and the
    separators 28-31, which are no blanks for an ASCII literal. *)
Lemma py_int_literals :
  Py.int " -12 " = Some (-12)
  /\ Py.int "+007" = Some 7
  /\ Py.int "1_000" = Some 1000
  /\ Py.int "1__0" = None
  /\ Py.int "_1" = None
  /\ Py.int "1_" = None
  /\ Py.int "- 1" = None
  /\ Py.int "" = None
  /\ Py.int "1.0" = None
  /\ Py.int (String (ascii_of_nat 28) "5") = None
  /\ Py.int (String (ascii_of_nat 9) "5") = Some 5.
Proof.
  repeat split; reflexivity.
Qed.

(** ** Constant trigger lines *)

(** C4 (as stated, refuted): a trigger line of one sample is constant, yet
    line 243 squeezes it to a zero-dimensional array, the slicing of line
    245 raises [IndexError], and [read_pramat] raises it on a raw file of
    one sample per row. *)
Lemma one_sample_constant_line_raises :
  Np.squeeze [7] = Np.Arr0 7
  /\ trigger_extract (Np.squeeze [7]) (Np.squeeze [inject_Z 0])
     = Raise IndexError
  /\ Py.getlast (f_raw Cases.one_sample_file) = Ok [inject_Z 7]
  /\ read_pramat Cases.one_sample Sample.root = ([], Raise IndexError).
Proof.
  repeat split; reflexivity.
Qed.

(** C4 (amended): for every trigger line of no sample or of at least two
    samples whose values are all identical (the all-zero line included),
    with a time vector of other than one entry, the squeezing of lines
    241-243 followed by the extraction of lines 245-251 returns empty event
    and time sequences, and does not raise; so the line [7,7,7], whose
    nonzero code sits on the first sample and never changes, reports
    nothing.  And whenever [read_pramat] returns on a raw file whose rounded
    trigger row is constant, the returned events and times are empty. *)
Theorem constant_line_gives_no_event :
  (forall (c : Z) (n : nat) (tms : list Q),
      n <> 1%nat ->
      length tms <> 1%nat ->
      trigger_extract (Np.squeeze (repeat c n)) (Np.squeeze tms)
      = Ok ([], []))
  /\ trigger_extract (Np.squeeze [7; 7; 7])
       (Np.squeeze (map inject_Z [0; 1; 2]))
     = Ok ([], [])
  /\ trigger_extract (Np.squeeze [0; 0; 0])
       (Np.squeeze (map inject_Z [0; 1; 2]))
     = Ok ([], [])
  /\ (forall (w : World) (mat_root : string) (lg : log) (r : Recording),
         read_pramat w mat_root = (lg, Ok r) ->
         exists lg1 path_head path_raw f row,
           build_path w mat_root = (lg1, Ok (path_head, path_raw))
           /\ h5py_file w path_raw = Ok f
           /\ Py.getlast (f_raw f) = Ok row
           /\ (forall c : Z,
                  map (fun x => Np.astype_int (Np.round x)) row
                  = repeat c (length row) ->
                  trig_event r = [] /\ trig_time r = [])).
Proof.
  assert (H : forall (c : Z) (n : nat) (tms : list Q),
             n <> 1%nat -> length tms <> 1%nat ->
             trigger_extract (Np.squeeze (repeat c n)) (Np.squeeze tms)
             = Ok ([], [])).
  { intros c n tms Hn Ht.
    rewrite (squeeze_Arr1 (repeat c n)) by (rewrite repeat_length; exact Hn).
    rewrite (squeeze_Arr1 tms Ht).
    apply (proj1 trigger_extract_constant_array). }
  split; [exact H |].
  split; [reflexivity |].
  split; [reflexivity |].
  intros w mat_root lg r Hr. apply read_pramat_ok in Hr.
  destruct Hr as (lg1 & lg2 & ph & pr & cn & ct & f & row & _ & Hp & _ & _
                  & _ & _ & _ & _ & Hf & _ & Hrow & Htrig & _).
  exists lg1, ph, pr, f, row.
  split; [exact Hp |]. split; [exact Hf |]. split; [exact Hrow |].
  intros c Hc. rewrite Hc in Htrig.
  destruct (trigger_extract_squeezed _ _ _ _ Htrig) as [H1 H2].
  rewrite repeat_length in H1.
  rewrite (H c (length row) (f_time f) H1 H2) in Htrig.
  inversion Htrig. split; reflexivity.
Qed.

Lemma constant_line_gives_no_event_witness :
  3%nat <> 1%nat
  /\ length (map inject_Z [0; 1; 2]) <> 1%nat
  /\ trigger_extract (Np.squeeze (repeat 7 3))
       (Np.squeeze (map inject_Z [0; 1; 2]))
     = Ok ([], []).
Proof.
  assert (Hn : 3%nat <> 1%nat) by discriminate.
  assert (Ht : length (map inject_Z [0; 1; 2]) <> 1%nat)
    by (simpl; discriminate).
  split; [exact Hn |].
  split; [exact Ht |].
  exact (proj1 constant_line_gives_no_event 7 3%nat
           (map inject_Z [0; 1; 2]) Hn Ht).
Defined.
